(** * fastNLP callbacks: [fastNLP/core/callbacks/callback.py]

    A shallow embedding of the callback base classes of fastNLP and the
    properties of the monitor tracker ([HasMonitorCallback]), of the
    callback identity ([callback_name]) and of the function adapter
    ([_CallbackWrapper]).

    Python objects become records, attribute mutation becomes explicit state
    passing (every method takes [self] and returns the new [self]), raised
    exceptions become the [Raise] case of [outcome], and the logger becomes a
    list of emitted records. *)

From Stdlib Require Import QArith.
From stdpp Require Import gmap strings list pretty.

Local Open Scope string_scope.

(** ** Python values *)

(** The numbers a monitor can take.  Python compares [int] and [float]
    operands by their exact mathematical value, so a finite number is kept
    as that value; the two infinities and the [nan] of [float] are separate
    cases.  [float('-inf')] is [NegInf] and [float('inf')] is [PosInf]. *)
Inductive pynum : Type :=
| NaN
| NegInf
| Finite (q : Q)
| PosInf.

(** [a < b] on numbers: every comparison with [nan] is false. *)
Definition py_lt (a b : pynum) : bool :=
  match a, b with
  | NaN, _ | _, NaN => false
  | _, NegInf => false
  | NegInf, _ => true
  | PosInf, _ => false
  | Finite _, PosInf => true
  | Finite p, Finite q => match (p ?= q)%Q with Lt => true | _ => false end
  end.

(** [a > b] on numbers. *)
Definition py_gt (a b : pynum) : bool :=
  match a, b with
  | NaN, _ | _, NaN => false
  | NegInf, _ => false
  | _, NegInf => true
  | _, PosInf => false
  | PosInf, Finite _ => true
  | Finite p, Finite q => match (p ?= q)%Q with Gt => true | _ => false end
  end.

(** The mathematical strict order the two tests decide. *)
Inductive num_lt : pynum -> pynum -> Prop :=
| lt_neg_fin q : num_lt NegInf (Finite q)
| lt_neg_pos : num_lt NegInf PosInf
| lt_fin_pos q : num_lt (Finite q) PosInf
| lt_fin_fin p q : (p < q)%Q -> num_lt (Finite p) (Finite q).

(** The objects handed over as [monitor] and [larger_better]: the
    constructor arguments of a callback and the attributes of the trainer. *)
Inductive pyobj : Type :=
| PyNone
| PyBool (b : bool)
| PyInt (z : Z)
| PyStr (s : string).

(** [bool(o)], which is also the test of [if o:]. *)
Definition py_bool (o : pyobj) : bool :=
  match o with
  | PyNone => false
  | PyBool b => b
  | PyInt z => negb (z =? 0)%Z
  | PyStr s => negb (String.eqb s "")
  end.

(** [str(o)]. *)
Definition py_str (o : pyobj) : string :=
  match o with
  | PyNone => "None"
  | PyBool true => "True"
  | PyBool false => "False"
  | PyInt z => pretty z
  | PyStr s => s
  end.

(** [o is None]. *)
Definition is_None (o : pyobj) : bool :=
  match o with PyNone => true | _ => false end.

(** ** Exceptions *)

Inductive exn : Type :=
| PyExc (kind : string) (msg : string).

Definition RuntimeError (msg : string) : exn := PyExc "RuntimeError" msg.
Definition AttributeError (msg : string) : exn := PyExc "AttributeError" msg.

Inductive outcome (A : Type) : Type :=
| Return (a : A)
| Raise (e : exn).
Arguments Return {A} a.
Arguments Raise {A} e.

Definition bind {A B : Type} (m : outcome A) (k : A -> outcome B) : outcome B :=
  match m with
  | Return a => k a
  | Raise e => Raise e
  end.

Notation "x <- m ;; k" := (bind m (fun x => k))
  (at level 100, m at next level, right associativity).

(** ** The monitor tracker: [class HasMonitorCallback(Callback)] *)

(** The attributes of an instance.  [type_name] is
    [self.__class__.__name__]; the attribute [must_have_moinitor] is spelled
    as the source spells it. *)
Record HasMonitorCallback : Type := {
  type_name : string;
  monitor : option string;
  larger_better : bool;
  monitor_value : pynum;
  _real_monitor : option string;
  must_have_moinitor : bool
}.

(** [def set_monitor(self, monitor, larger_better)] *)
Definition set_monitor (monitor0 larger_better0 : pyobj)
    (self : HasMonitorCallback) : HasMonitorCallback :=
  let name := if is_None monitor0 then None else Some (py_str monitor0) in
  {| type_name := type_name self;
     monitor := name;
     larger_better := py_bool larger_better0;
     monitor_value := if py_bool larger_better0 then NegInf else PosInf;
     _real_monitor := name;
     must_have_moinitor := must_have_moinitor self |}.

(** [def __init__(self, monitor, larger_better, must_have_monitor=False)],
    on a fresh instance of the class named [cls].  The four attributes that
    [set_monitor] assigns do not exist before the call; the values they are
    given here are all overwritten (lemma [set_monitor_overwrites]). *)
Definition HasMonitorCallback_init (cls : string) (monitor0 larger_better0 : pyobj)
    (must_have_monitor : bool) : HasMonitorCallback :=
  let self := {| type_name := cls; monitor := None; larger_better := false;
                 monitor_value := NaN; _real_monitor := None;
                 must_have_moinitor := false |} in
  let self := set_monitor monitor0 larger_better0 self in
  {| type_name := type_name self;
     monitor := monitor self;
     larger_better := larger_better self;
     monitor_value := monitor_value self;
     _real_monitor := _real_monitor self;
     must_have_moinitor := must_have_monitor |}.

(** [def is_former_monitor_value_better(self, monitor_value1, monitor_value2)] *)
Definition is_former_monitor_value_better (self : HasMonitorCallback)
    (monitor_value1 monitor_value2 : pynum) : bool :=
  let better := false in
  if (larger_better self && py_gt monitor_value1 monitor_value2)
     || (negb (larger_better self) && py_lt monitor_value1 monitor_value2)
  then true
  else better.

(** [better_than self a b]: [a] is strictly on the better side of [b] for
    the direction of [self]. *)
Definition better_than (self : HasMonitorCallback) (a b : pynum) : Prop :=
  (larger_better self = true /\ num_lt b a)
  \/ (larger_better self = false /\ num_lt a b).

(** [def is_better_monitor_value(self, monitor_value, keep_if_better=True)]:
    the new [self] and the returned flag. *)
Definition is_better_monitor_value (monitor_value0 : pynum) (keep_if_better : bool)
    (self : HasMonitorCallback) : HasMonitorCallback * bool :=
  let better := is_former_monitor_value_better self monitor_value0 (monitor_value self) in
  let self :=
    if keep_if_better && better
    then {| type_name := type_name self;
            monitor := monitor self;
            larger_better := larger_better self;
            monitor_value := monitor_value0;
            _real_monitor := _real_monitor self;
            must_have_moinitor := must_have_moinitor self |}
    else self in
  (self, better).

(** A run of [is_better_monitor_value] calls on one instance, each call
    with its value and its [keep_if_better]; the flags are returned in call
    order. *)
Fixpoint is_better_monitor_value_calls (calls : list (pynum * bool))
    (self : HasMonitorCallback) : HasMonitorCallback * list bool :=
  match calls with
  | [] => (self, [])
  | (v, keep) :: calls =>
      let '(self, better) := is_better_monitor_value v keep self in
      let '(self, flags) := is_better_monitor_value_calls calls self in
      (self, better :: flags)
  end.

(** What [on_after_trainer_initialized] reads of the trainer. *)
Record Trainer : Type := {
  trainer_monitor : pyobj;
  trainer_larger_better : pyobj
}.

(** [def on_after_trainer_initialized(self, trainer, driver)]: the instance
    after the call and how the call ended.  [driver] is not used by the
    method. *)
Definition on_after_trainer_initialized (trainer : Trainer) (driver : pyobj)
    (self : HasMonitorCallback) : HasMonitorCallback * outcome unit :=
  let self :=
    if bool_decide (monitor self = None) && negb (is_None (trainer_monitor trainer))
    then set_monitor (trainer_monitor trainer) (trainer_larger_better trainer) self
    else self in
  if must_have_moinitor self && bool_decide (monitor self = None)
  then (self, Raise (RuntimeError
          ("No `monitor` is set for " ++ type_name self ++ ". "
           ++ "You can set it in the initialization or through Trainer.")))
  else (self, Return tt).

(** ** Evaluation results *)

(** An entry of an evaluation result: a plain number, or an object whose
    class has a callable [item] (a tensor holding one number). *)
Inductive metric : Type :=
| Plain (v : pynum)
| Tensor (v : pynum).

(** [isinstance(x, CanItemDataType)], decided by
    [CanItemDataType.__subclasshook__]: [callable(getattr(subclass, 'item', None))]. *)
Definition CanItemDataType (x : metric) : bool :=
  match x with
  | Tensor _ => true
  | Plain _ => false
  end.

(** [x.item()] *)
Definition item (x : metric) : outcome metric :=
  match x with
  | Tensor v => Return (Plain v)
  | Plain _ => Raise (AttributeError "item")
  end.

(** A result mapping, in the insertion order of the [dict]. *)
Definition results : Type := list (string * metric).

(** [list(results.keys())] *)
Definition keys (res : results) : list string := fst <$> res.

(** What [logger.warning] receives in [get_monitor_value]: the fields its
    message is formatted from ([self.monitor], the keys of the results,
    [use_monitor] and the type name). *)
Record warning : Type := {
  requested : option string;
  result_keys : list string;
  substituted : option string;
  callback_type : string
}.

Section GetMonitorValue.

(** The two functions [get_monitor_value] imports from other modules of the
    package ([fastNLP.core.utils.apply_to_collection] and
    [.utils._get_monitor_value]).  The properties below hold whatever they
    compute. *)
Variable apply_to_collection :
  results -> (metric -> bool) -> (metric -> outcome metric) -> outcome results.
Variable _get_monitor_value :
  option string -> option string -> results -> outcome (option string * metric).

(** [def get_monitor_value(self, results: Dict) -> float]: the instance
    after the call, how the call ended, and the warnings it logged. *)
Definition get_monitor_value (results0 : results) (self : HasMonitorCallback)
    : HasMonitorCallback * outcome metric * list warning :=
  if (length results0 =? 0)%nat then (self, Return (Plain (Finite 0)), [])
  else
    match apply_to_collection results0 CanItemDataType (fun x => item x) with
    | Raise e => (self, Raise e, [])
    | Return results1 =>
        match _get_monitor_value (monitor self) (_real_monitor self) results1 with
        | Raise e => (self, Raise e, [])
        | Return (use_monitor, monitor_value0) =>
            let log :=
              if bool_decide (_real_monitor self ≠ use_monitor)
              then [ {| requested := monitor self;
                        result_keys := keys results1;
                        substituted := use_monitor;
                        callback_type := type_name self |} ]
              else [] in
            ({| type_name := type_name self;
                monitor := monitor self;
                larger_better := larger_better self;
                monitor_value := monitor_value self;
                _real_monitor := use_monitor;
                must_have_moinitor := must_have_moinitor self |},
             Return monitor_value0, log)
        end
    end.

(** Successive [get_monitor_value] calls on one instance: the instance at
    the end, the outcome of every call and the warnings of every call.  A
    call that raises leaves the instance as it was, and the run goes on
    with the next evaluation. *)
Fixpoint get_monitor_value_calls (evals : list results) (self : HasMonitorCallback)
    : HasMonitorCallback * list (outcome metric) * list (list warning) :=
  match evals with
  | [] => (self, [], [])
  | res :: evals =>
      let '(self, out, log) := get_monitor_value res self in
      let '(self, outs, logs) := get_monitor_value_calls evals self in
      (self, out :: outs, log :: logs)
  end.

End GetMonitorValue.

(** *** The imported helpers *)

(** Modelled from the spec: [apply_to_collection] of [fastNLP.core.utils],
    which is not part of the sources at hand, on a flat result mapping:
    every entry of the given [dtype] is replaced by what [function] returns
    for it, the other entries are kept, and an exception of [function]
    ends the call. *)
Fixpoint apply_to_collection_flat (data : results) (dtype : metric -> bool)
    (function : metric -> outcome metric) : outcome results :=
  match data with
  | [] => Return []
  | (k, x) :: data =>
      y <- (if dtype x then function x else Return x) ;;
      data <- apply_to_collection_flat data dtype function ;;
      Return ((k, y) :: data)
  end.

(** [res[key]], or nothing when [key not in res]. *)
Fixpoint getitem (res : results) (key : string) : option metric :=
  match res with
  | [] => None
  | (k, x) :: res => if String.eqb k key then Some x else getitem res key
  end.

(** The first entry of [res] whose key contains [name]. *)
Fixpoint find_containing (name : string) (res : results) : option (string * metric) :=
  match res with
  | [] => None
  | (k, x) :: res =>
      match String.index 0 name k with
      | Some _ => Some (k, x)
      | None => find_containing name res
      end
  end.

(** Modelled from the spec: [_get_monitor_value] of [.utils], which is not
    part of the sources at hand.  An exact match of the requested name
    wins; otherwise the key resolved last time is used if it is still
    there; otherwise the first key containing the requested name is taken;
    and the call fails when no key matches. *)
Definition _get_monitor_value_match (monitor0 real_monitor : option string)
    (res : results) : outcome (option string * metric) :=
  match monitor0 ≫= (fun m => getitem res m) with
  | Some x => Return (monitor0, x)
  | None =>
      match real_monitor ≫= (fun m => getitem res m) with
      | Some x => Return (real_monitor, x)
      | None =>
          match monitor0 ≫= (fun m => find_containing m res) with
          | Some (k, x) => Return (Some k, x)
          | None => Raise (PyExc "KeyError" (default "None" monitor0))
          end
      end
  end.

(** ** Callback identity: [callback_name] *)

(** A user function: its [__name__] and what it computes from the
    positional arguments of a hook. *)
Record pyfunction : Type := {
  __name__ : string;
  body : list pyobj -> pyobj
}.

(** The interface of the [callback_name] property of [class Callback]. *)
Class Callback (A : Type) : Type := {
  callback_name : A -> string
}.

(** An instance of [Callback] itself or of a subclass that keeps the
    inherited property; [plain_type_name] is [self.__class__.__name__]. *)
Record PlainCallback : Type := {
  plain_type_name : string
}.

(** [Callback.callback_name]: [return self.__class__.__name__] *)
#[export] Instance PlainCallback_Callback : Callback PlainCallback :=
  {| callback_name self := plain_type_name self |}.

(** [HasMonitorCallback] inherits the property from [Callback]. *)
#[export] Instance HasMonitorCallback_Callback : Callback HasMonitorCallback :=
  {| callback_name self := type_name self |}.

(** ** Events and filters: [callback_events] *)

(** Modelled from the spec: [_SingleEventState], the class of the members
    of [Events], is declared in [callback_events.py], which is not part of
    the sources at hand.  An event carries its [value] (the name of the
    hook) and the filter settings [every], [once] and [filter_fn]; the
    custom predicate takes the running call count. *)
Record _SingleEventState : Type := {
  value : string;
  every : option Z;
  once : option Z;
  filter_fn : option (Z -> bool)
}.

(** Modelled from the spec: [Filter], declared in [callback_events.py].  A
    filter instance holds its settings and its call counter, which starts
    at zero so that the first invocation counts as 1. *)
Record Filter : Type := {
  _every : option Z;
  _once : option Z;
  _filter_fn : option (Z -> bool);
  num_called : Z
}.

(** Modelled from the spec: [Filter(every, once, filter_fn)]. *)
Definition Filter_init (every0 once0 : option Z) (filter_fn0 : option (Z -> bool))
    : Filter :=
  {| _every := every0; _once := once0; _filter_fn := filter_fn0; num_called := 0 |}.

(** The filter the adapter constructs for an event. *)
Abbreviation Filter_of e := (Filter_init (every e) (once e) (filter_fn e)).

(** Modelled from the spec: the firing policy of a filter at call count
    [n]: [filter_fn(n)] if a predicate is given, else [n == once] if [once]
    is set, else [n % every == 0], with [every] defaulting to 1. *)
Definition fires (f : Filter) (n : Z) : bool :=
  match _filter_fn f with
  | Some p => p n
  | None =>
      match _once f with
      | Some k => (n =? k)%Z
      | None => (n mod default 1%Z (_every f) =? 0)%Z
      end
  end.

(** Filter instances live in a store and are referred to by address: the
    function a filter returns keeps a reference to the filter it was made
    by.  A new instance is put at the end of the store. *)
Abbreviation store := (list Filter).

(** The callable [_filter(fn)]: the filter it closes over and the wrapped
    function. *)
Record filtered : Type := {
  closure_filter : nat;
  wrapped : pyfunction
}.

(** Modelled from the spec: [Filter.__call__(fn)]. *)
Definition Filter_call (_filter : nat) (fn : pyfunction) : filtered :=
  {| closure_filter := _filter; wrapped := fn |}.

(** Modelled from the spec: one call of the wrapped callable.  The counter
    of its filter is incremented whether or not the handler fires; the
    result is the handler's when it fires and nothing otherwise. *)
Definition invoke (h : filtered) (args : list pyobj) (st : store)
    : store * option pyobj :=
  match st !! closure_filter h with
  | None => (st, None)
  | Some f =>
      let n := (num_called f + 1)%Z in
      let f := {| _every := _every f; _once := _once f;
                  _filter_fn := _filter_fn f; num_called := n |} in
      (<[closure_filter h := f]> st,
       if fires f n then Some (body (wrapped h) args) else None)
  end.

(** ** The function adapter: [class _CallbackWrapper(Callback)] *)

(** The [event] argument of the constructor, by the [isinstance] tests it
    goes through: an [EventsList] (iterated in order), a single event, or
    an object of another type. *)
Inductive event_arg : Type :=
| IsEventsList (events : list _SingleEventState)
| IsSingleEventState (event : _SingleEventState)
| IsOther.

(** The attributes of an instance: [fn], and the attributes set by
    [setattr], by name. *)
Record _CallbackWrapper : Type := {
  fn : pyfunction;
  attrs : gmap string filtered
}.

(** [_filter = Filter(e.every, e.once, e.filter_fn)] followed by
    [setattr(self, e.value, _filter(fn))]. *)
Definition bind_event (fn0 : pyfunction) (self : _CallbackWrapper * store)
    (each_event : _SingleEventState) : _CallbackWrapper * store :=
  let '(self, st) := self in
  let _filter := length st in
  let st := (st ++ [Filter_init (every each_event) (once each_event)
                      (filter_fn each_event)])%list in
  ({| fn := fn self;
      attrs := <[value each_event := Filter_call _filter fn0]> (attrs self) |}, st).

(** [def __init__(self, event, fn)], on a fresh instance. *)
Definition _CallbackWrapper_init (event : event_arg) (fn0 : pyfunction) (st : store)
    : _CallbackWrapper * store :=
  let self := {| fn := fn0; attrs := ∅ |} in
  match event with
  | IsEventsList events => foldl (bind_event fn0) (self, st) events
  | IsSingleEventState event => bind_event fn0 (self, st) event
  | IsOther => (self, st)
  end.

(** [_CallbackWrapper.callback_name]: [return self.fn.__name__] *)
#[export] Instance _CallbackWrapper_Callback : Callback _CallbackWrapper :=
  {| callback_name self := __name__ (fn self) |}.

(** The events the constructor binds, by the branch it takes: those of
    the list in order, the single event, or none. *)
Definition target_events (event : event_arg) : list _SingleEventState :=
  match event with
  | IsEventsList events => events
  | IsSingleEventState event => [event]
  | IsOther => []
  end.

(** ** Call sequences on a tracker *)

(** The methods a caller can invoke on a constructed tracker. *)
Inductive tracker_call : Type :=
| Call_set_monitor (monitor0 larger_better0 : pyobj)
| Call_on_after_trainer_initialized (trainer : Trainer) (driver : pyobj)
| Call_get_monitor_value (results0 : results)
| Call_is_better_monitor_value (monitor_value0 : pynum) (keep_if_better : bool).

Definition is_Call_set_monitor (c : tracker_call) : bool :=
  match c with
  | Call_set_monitor _ _ => true
  | _ => false
  end.

Section TrackerCalls.

Variable apply_to_collection :
  results -> (metric -> bool) -> (metric -> outcome metric) -> outcome results.
Variable _get_monitor_value :
  option string -> option string -> results -> outcome (option string * metric).

(** The instance after one call, whether the call returned or raised. *)
Definition tracker_step (self : HasMonitorCallback) (c : tracker_call)
    : HasMonitorCallback :=
  match c with
  | Call_set_monitor monitor0 larger_better0 =>
      set_monitor monitor0 larger_better0 self
  | Call_on_after_trainer_initialized trainer driver =>
      fst (on_after_trainer_initialized trainer driver self)
  | Call_get_monitor_value results0 =>
      fst (fst (get_monitor_value apply_to_collection _get_monitor_value results0 self))
  | Call_is_better_monitor_value monitor_value0 keep_if_better =>
      fst (is_better_monitor_value monitor_value0 keep_if_better self)
  end.

(** The instance after a sequence of calls. *)
Definition tracker_run (calls : list tracker_call) (self : HasMonitorCallback)
    : HasMonitorCallback :=
  foldl tracker_step self calls.

(** [resolves_run evals ks self]: along the run of [get_monitor_value]
    calls on the non-empty results [evals], the name resolution of the
    [i]-th call, made with the key remembered from the call before, ends
    on the [i]-th key of [ks]. *)
Fixpoint resolves_run (evals : list results) (ks : list (option string))
    (monitor0 prev : option string) : Prop :=
  match evals, ks with
  | [], [] => True
  | res :: evals, k :: ks =>
      res <> []
      /\ (exists (res1 : results) (v : metric),
            apply_to_collection res CanItemDataType (fun x => item x) = Return res1
            /\ _get_monitor_value monitor0 prev res1 = Return (k, v))
      /\ resolves_run evals ks monitor0 k
  | _, _ => False
  end.

End TrackerCalls.

(** How many warnings the calls of a run log when the resolved keys are
    [ks] and the key remembered before the run is [prev]: one for every
    key that differs from the one before it. *)
Fixpoint key_changes (prev : option string) (ks : list (option string)) : list nat :=
  match ks with
  | [] => []
  | k :: ks => (if decide (prev = k) then 0 else 1) :: key_changes k ks
  end.

(** * Properties *)

(** ** The order on monitor values *)

#[local] Arguments Qcompare : simpl never.

Lemma py_gt_lt (a b : pynum) : py_gt a b = py_lt b a.
Proof.
  destruct a as [| |p|], b as [| |q|]; simpl; try reflexivity.
  rewrite <- (Qcompare_antisym q p).
  destruct (q ?= p)%Q; reflexivity.
Qed.

Lemma py_lt_spec (a b : pynum) : py_lt a b = true <-> num_lt a b.
Proof.
  split.
  - destruct a as [| |p|], b as [| |q|]; simpl; try discriminate; intros H;
      try constructor.
    apply Qlt_alt. destruct (p ?= q)%Q; [discriminate | reflexivity | discriminate].
  - intros H. destruct H as [q | | q | p q Hpq]; simpl; try reflexivity.
    rewrite (proj1 (Qlt_alt p q) Hpq). reflexivity.
Qed.

Lemma num_lt_irrefl (a : pynum) : ~ num_lt a a.
Proof.
  intros H. inversion H as [ | | | p q Hpq]; subst.
  exact (Qlt_irrefl _ Hpq).
Qed.

Lemma num_lt_trans (a b c : pynum) : num_lt a b -> num_lt b c -> num_lt a c.
Proof.
  intros Hab Hbc. destruct Hab; inversion Hbc; subst; constructor.
  eapply Qlt_trans; eassumption.
Qed.

Lemma num_lt_asym (a b : pynum) : num_lt a b -> ~ num_lt b a.
Proof.
  intros Hab Hba. exact (num_lt_irrefl a (num_lt_trans a b a Hab Hba)).
Qed.

Lemma py_lt_irrefl (a : pynum) : py_lt a a = false.
Proof.
  destruct (py_lt a a) eqn:E; [| reflexivity].
  apply py_lt_spec in E. destruct (num_lt_irrefl a E).
Qed.

(** Numerically equal finite values are not ordered either way. *)
Lemma py_lt_Qeq (p q : Q) : (p == q)%Q -> py_lt (Finite p) (Finite q) = false.
Proof.
  intros Hpq. simpl. rewrite (proj1 (Qeq_alt p q) Hpq). reflexivity.
Qed.

(** ** The comparison in the configured direction *)

Lemma is_former_monitor_value_better_true (self : HasMonitorCallback) (v1 v2 : pynum) :
  is_former_monitor_value_better self v1 v2 = true <-> better_than self v1 v2.
Proof.
  unfold is_former_monitor_value_better, better_than.
  rewrite py_gt_lt.
  destruct (larger_better self); simpl.
  - rewrite orb_false_r.
    destruct (py_lt v2 v1) eqn:E.
    + apply py_lt_spec in E. split; [intros _; left; auto | reflexivity].
    + split; [discriminate |].
      intros [[_ H] | [H _]]; [| discriminate].
      apply py_lt_spec in H. congruence.
  - destruct (py_lt v1 v2) eqn:E.
    + apply py_lt_spec in E. split; [intros _; right; auto | reflexivity].
    + split; [discriminate |].
      intros [[H _] | [_ H]]; [discriminate |].
      apply py_lt_spec in H. congruence.
Qed.

Lemma better_than_irrefl (self : HasMonitorCallback) (v : pynum) :
  ~ better_than self v v.
Proof. intros [[_ H] | [_ H]]; exact (num_lt_irrefl v H). Qed.

Lemma better_than_trans (self : HasMonitorCallback) (a b c : pynum) :
  better_than self a b -> better_than self b c -> better_than self a c.
Proof.
  intros [[Hd Hab] | [Hd Hab]] [[Hd' Hbc] | [Hd' Hbc]]; try congruence.
  - left. split; [assumption |]. eapply num_lt_trans; eassumption.
  - right. split; [assumption |]. eapply num_lt_trans; eassumption.
Qed.

Lemma is_former_monitor_value_better_irrefl (self : HasMonitorCallback) (v : pynum) :
  is_former_monitor_value_better self v v = false.
Proof.
  destruct (is_former_monitor_value_better self v v) eqn:E; [| reflexivity].
  apply is_former_monitor_value_better_true in E.
  destruct (better_than_irrefl self v E).
Qed.

(** C1: [is_former_monitor_value_better(v1, v2)] is true if and only if
    [larger_better] is set and [v1 > v2], or [larger_better] is not set and
    [v1 < v2].  A tie is never better, in either direction: the method
    returns false on a value against itself, and on two finite values that
    are numerically equal. *)
Theorem is_former_monitor_value_better_iff (self : HasMonitorCallback) (v1 v2 : pynum) :
  (is_former_monitor_value_better self v1 v2 = true <->
     (larger_better self = true /\ py_gt v1 v2 = true)
     \/ (larger_better self = false /\ py_lt v1 v2 = true))
  /\ (is_former_monitor_value_better self v1 v2 = true <->
      (larger_better self = true /\ num_lt v2 v1)
      \/ (larger_better self = false /\ num_lt v1 v2))
  /\ is_former_monitor_value_better self v1 v1 = false
  /\ (forall p q : Q, (p == q)%Q ->
      is_former_monitor_value_better self (Finite p) (Finite q) = false).
Proof.
  split; [| split; [| split]].
  - rewrite is_former_monitor_value_better_true. unfold better_than.
    rewrite py_gt_lt, !py_lt_spec. reflexivity.
  - apply is_former_monitor_value_better_true.
  - apply is_former_monitor_value_better_irrefl.
  - intros p q Hpq. unfold is_former_monitor_value_better.
    rewrite py_gt_lt, (py_lt_Qeq p q Hpq), (py_lt_Qeq q p (Qeq_sym _ _ Hpq)).
    destruct (larger_better self); reflexivity.
Qed.

(** The concrete instance used to exercise C1: a smaller-better tracker. *)
Lemma is_former_monitor_value_better_iff_witness :
  is_former_monitor_value_better
    (HasMonitorCallback_init "EarlyStop" (PyStr "loss") (PyBool false) false)
    (Finite (1 # 2)) (Finite (2 # 4)) = false.
Proof.
  apply (is_former_monitor_value_better_iff
           (HasMonitorCallback_init "EarlyStop" (PyStr "loss") (PyBool false) false)
           (Finite (1 # 2)) (Finite (2 # 4))).
  reflexivity.
Defined.

(** ** [is_better_monitor_value] *)

Lemma is_better_monitor_value_frame (v : pynum) (keep : bool) (self : HasMonitorCallback) :
  let self' := fst (is_better_monitor_value v keep self) in
  type_name self' = type_name self
  /\ monitor self' = monitor self
  /\ larger_better self' = larger_better self
  /\ _real_monitor self' = _real_monitor self
  /\ must_have_moinitor self' = must_have_moinitor self.
Proof.
  unfold is_better_monitor_value. simpl.
  destruct (keep && _); simpl; repeat split; reflexivity.
Qed.

(** C2: [is_better_monitor_value(v, keep_if_better)] returns the
    direction-aware comparison of [v] against the stored [monitor_value].
    It stores [v] as the new [monitor_value] when the comparison is true
    and [keep_if_better] is true, and leaves the instance as it was
    otherwise; so [monitor_value] changes exactly when both are true.  No
    other attribute is touched. *)
Theorem is_better_monitor_value_spec (v : pynum) (keep : bool) (self : HasMonitorCallback) :
  let better := is_former_monitor_value_better self v (monitor_value self) in
  let self' := fst (is_better_monitor_value v keep self) in
  snd (is_better_monitor_value v keep self) = better
  /\ (keep = true /\ better = true -> monitor_value self' = v)
  /\ (keep = false \/ better = false -> self' = self)
  /\ (monitor_value self' <> monitor_value self <-> keep = true /\ better = true)
  /\ type_name self' = type_name self
  /\ monitor self' = monitor self
  /\ larger_better self' = larger_better self
  /\ _real_monitor self' = _real_monitor self
  /\ must_have_moinitor self' = must_have_moinitor self.
Proof.
  intros better self'.
  split; [reflexivity |].
  split; [| split; [| split; [| apply is_better_monitor_value_frame]]].
  - intros [-> Hb]. subst self'. unfold is_better_monitor_value.
    fold better. rewrite Hb. reflexivity.
  - intros H. subst self'. unfold is_better_monitor_value. fold better.
    destruct H as [-> | ->]; [reflexivity |].
    rewrite andb_false_r. reflexivity.
  - subst self'. unfold is_better_monitor_value. fold better.
    destruct keep, better eqn:Hb; simpl; split; try tauto;
      try (intros [? ?]; discriminate).
    intros _ Heq. subst better. rewrite Heq in Hb.
    rewrite is_former_monitor_value_better_irrefl in Hb. discriminate.
Qed.

Lemma is_better_monitor_value_spec_witness :
  let self := HasMonitorCallback_init "Checkpoint" (PyStr "acc") (PyBool true) false in
  monitor_value (fst (is_better_monitor_value (Finite 3) true self)) = Finite 3.
Proof.
  intros self.
  apply (is_better_monitor_value_spec (Finite 3) true self).
  split; reflexivity.
Defined.

(** ** Monotonicity of [monitor_value] *)

Lemma is_better_monitor_value_calls_cons (v : pynum) (keep : bool)
    (calls : list (pynum * bool)) (self : HasMonitorCallback) :
  is_better_monitor_value_calls ((v, keep) :: calls) self =
  let '(self1, better) := is_better_monitor_value v keep self in
  let '(self2, flags) := is_better_monitor_value_calls calls self1 in
  (self2, better :: flags).
Proof. reflexivity. Qed.

Lemma is_better_monitor_value_calls_app (c1 c2 : list (pynum * bool))
    (self : HasMonitorCallback) :
  is_better_monitor_value_calls (c1 ++ c2)%list self =
  let '(self1, flags1) := is_better_monitor_value_calls c1 self in
  let '(self2, flags2) := is_better_monitor_value_calls c2 self1 in
  (self2, (flags1 ++ flags2)%list).
Proof.
  revert self. induction c1 as [| [v keep] c1 IH]; intros self.
  - simpl. destruct (is_better_monitor_value_calls c2 self). reflexivity.
  - rewrite <- app_comm_cons, !is_better_monitor_value_calls_cons.
    destruct (is_better_monitor_value v keep self) as [self1 b].
    rewrite IH.
    destruct (is_better_monitor_value_calls c1 self1) as [self2 f1].
    destruct (is_better_monitor_value_calls c2 self2) as [self3 f2].
    reflexivity.
Qed.

(** One call moves [monitor_value] to a strictly better value or not at
    all. *)
Lemma is_better_monitor_value_step (v : pynum) (keep : bool) (self : HasMonitorCallback) :
  let self' := fst (is_better_monitor_value v keep self) in
  monitor_value self' = monitor_value self
  \/ better_than self (monitor_value self') (monitor_value self).
Proof.
  unfold is_better_monitor_value. simpl.
  destruct keep; simpl; [| left; reflexivity].
  destruct (is_former_monitor_value_better self v (monitor_value self)) eqn:E;
    [| left; reflexivity].
  right. simpl. apply is_former_monitor_value_better_true. exact E.
Qed.

Lemma is_better_monitor_value_calls_monotone (calls : list (pynum * bool))
    (self : HasMonitorCallback) :
  let self' := fst (is_better_monitor_value_calls calls self) in
  larger_better self' = larger_better self
  /\ (monitor_value self' = monitor_value self
      \/ better_than self (monitor_value self') (monitor_value self)).
Proof.
  revert self. induction calls as [| [v keep] calls IH]; intros self.
  - split; [reflexivity | left; reflexivity].
  - rewrite is_better_monitor_value_calls_cons.
    pose proof (is_better_monitor_value_step v keep self) as Hstep.
    pose proof (is_better_monitor_value_frame v keep self) as (_ & _ & Hdir & _).
    destruct (is_better_monitor_value v keep self) as [self1 b]. simpl in *.
    specialize (IH self1).
    destruct (is_better_monitor_value_calls calls self1) as [self2 flags].
    simpl in *. destruct IH as [Hdir2 IH].
    split; [congruence |].
    assert (Hdir' : forall x y, better_than self1 x y -> better_than self x y).
    { intros x y. unfold better_than. rewrite Hdir. tauto. }
    destruct IH as [-> | IH]; [exact Hstep |].
    apply Hdir' in IH. right.
    destruct Hstep as [<- | Hstep]; [exact IH |].
    eapply better_than_trans; eassumption.
Qed.

(** C3: along any sequence of [is_better_monitor_value] calls on one
    instance, [monitor_value] only moves in the better direction: after any
    further calls it is the value it was or a strictly better one, and it
    is never a worse one; the direction itself does not change.  From the
    larger-better sentinel, the calls with 1, 5, 3, 8, 2 return true
    exactly on 1, 5 and 8 and leave [monitor_value] at 8. *)
Theorem monitor_value_monotone :
  (forall (before after : list (pynum * bool)) (self : HasMonitorCallback),
     let self1 := fst (is_better_monitor_value_calls before self) in
     let self2 := fst (is_better_monitor_value_calls (before ++ after)%list self) in
     larger_better self2 = larger_better self
     /\ (monitor_value self2 = monitor_value self1
         \/ better_than self (monitor_value self2) (monitor_value self1))
     /\ ~ better_than self (monitor_value self1) (monitor_value self2))
  /\ (forall (cls : string) (name : pyobj) (must : bool),
        let self := HasMonitorCallback_init cls name (PyBool true) must in
        let calls := [(Finite 1, true); (Finite 5, true); (Finite 3, true);
                      (Finite 8, true); (Finite 2, true)] in
        monitor_value self = NegInf
        /\ monitor_value (fst (is_better_monitor_value_calls calls self)) = Finite 8
        /\ snd (is_better_monitor_value_calls calls self)
           = [true; true; false; true; false]).
Proof.
  split.
  - intros before after self self1 self2. subst self1 self2.
    rewrite is_better_monitor_value_calls_app.
    pose proof (is_better_monitor_value_calls_monotone before self) as [Hd1 _].
    destruct (is_better_monitor_value_calls before self) as [self1 f1].
    pose proof (is_better_monitor_value_calls_monotone after self1) as [Hd2 Hm].
    destruct (is_better_monitor_value_calls after self1) as [self2 f2].
    simpl in *.
    assert (Hdir : forall a b, better_than self1 a b <-> better_than self a b).
    { intros a b. unfold better_than. rewrite Hd1. tauto. }
    split; [congruence |].
    split.
    + destruct Hm as [Hm | Hm]; [left; exact Hm | right; apply Hdir; exact Hm].
    + intros Hw. destruct Hm as [Hm | Hm].
      * rewrite Hm in Hw. exact (better_than_irrefl self _ Hw).
      * apply Hdir in Hm.
        exact (better_than_irrefl self _ (better_than_trans self _ _ _ Hw Hm)).
  - intros cls name must. repeat split; reflexivity.
Qed.

(** ** [set_monitor] *)

(** The attributes [set_monitor] assigns do not depend on what they held
    before. *)
Lemma set_monitor_overwrites (monitor0 larger_better0 : pyobj) (s1 s2 : HasMonitorCallback) :
  type_name s1 = type_name s2 ->
  must_have_moinitor s1 = must_have_moinitor s2 ->
  set_monitor monitor0 larger_better0 s1 = set_monitor monitor0 larger_better0 s2.
Proof. intros H1 H2. unfold set_monitor. rewrite H1, H2. reflexivity. Qed.

(** C7: [set_monitor(monitor, larger_better)] sets the tracked name and
    the direction, sets [monitor_value] to negative infinity when
    [larger_better] is true and to positive infinity otherwise, and sets
    [_real_monitor] to the requested name.  The sentinel is the worst value
    of the direction: it is better than no value, and every finite value is
    better than it.  A [None] monitor leaves both names [None]. *)
Theorem set_monitor_spec (name : string) (larger_better0 : pyobj)
    (self : HasMonitorCallback) :
  let self' := set_monitor (PyStr name) larger_better0 self in
  monitor self' = Some name
  /\ larger_better self' = py_bool larger_better0
  /\ monitor_value self' = (if py_bool larger_better0 then NegInf else PosInf)
  /\ _real_monitor self' = Some name
  /\ type_name self' = type_name self
  /\ must_have_moinitor self' = must_have_moinitor self
  /\ (forall flag : bool,
        larger_better (set_monitor (PyStr name) (PyBool flag) self) = flag
        /\ monitor_value (set_monitor (PyStr name) (PyBool flag) self)
           = (if flag then NegInf else PosInf))
  /\ (forall v, is_former_monitor_value_better self' (monitor_value self') v = false)
  /\ (forall q, is_former_monitor_value_better self' (Finite q) (monitor_value self') = true)
  /\ monitor (set_monitor PyNone larger_better0 self) = None
  /\ _real_monitor (set_monitor PyNone larger_better0 self) = None
  /\ monitor_value (set_monitor PyNone larger_better0 self)
     = (if py_bool larger_better0 then NegInf else PosInf).
Proof.
  cbv zeta. unfold set_monitor, is_former_monitor_value_better. cbn.
  repeat split.
  - intros v. destruct (py_bool larger_better0), v; reflexivity.
  - intros q. destruct (py_bool larger_better0); reflexivity.
Qed.

(** ** [get_monitor_value] *)

Section GetMonitorValueProperties.

Variable apply_to_collection :
  results -> (metric -> bool) -> (metric -> outcome metric) -> outcome results.
Variable _get_monitor_value :
  option string -> option string -> results -> outcome (option string * metric).

#[local] Abbreviation get_value := (get_monitor_value apply_to_collection _get_monitor_value).
#[local] Abbreviation get_values :=
  (get_monitor_value_calls apply_to_collection _get_monitor_value).

(** [resolves res self k v]: on the results [res], normalisation succeeds
    and the name resolution of [self] ends on the key [k] with value [v]. *)
#[local] Abbreviation resolves res self k v :=
  (exists res1 : results,
     apply_to_collection res CanItemDataType (fun x => item x) = Return res1
     /\ _get_monitor_value (monitor self) (_real_monitor self) res1 = Return (k, v)).

(** C4: on an empty result mapping [get_monitor_value] returns 0 and does
    not raise, whatever the monitor name and the direction the tracker was
    constructed with (and whatever the imported helpers would do). *)
Theorem get_monitor_value_empty (self : HasMonitorCallback) :
  snd (fst (get_value [] self)) = Return (Plain (Finite 0))
  /\ (forall e : exn, snd (fst (get_value [] self)) <> Raise e)
  /\ (forall (cls : string) (monitor0 larger_better0 : pyobj) (must : bool),
        snd (fst (get_value [] (HasMonitorCallback_init cls monitor0 larger_better0 must)))
        = Return (Plain (Finite 0))).
Proof.
  split; [reflexivity |].
  split; [intros e; discriminate |].
  intros cls monitor0 larger_better0 must. reflexivity.
Qed.

(** C10: when [results] is empty the call returns before any name
    resolution: the instance is left exactly as it was ([monitor],
    [larger_better], [monitor_value] and [_real_monitor] included), no
    warning is logged, and the outcome does not depend on the helpers. *)
Theorem get_monitor_value_empty_frame (res : results) (self : HasMonitorCallback) :
  length res = 0 ->
  get_value res self = (self, Return (Plain (Finite 0)), [])
  /\ monitor (fst (fst (get_value res self))) = monitor self
  /\ larger_better (fst (fst (get_value res self))) = larger_better self
  /\ monitor_value (fst (fst (get_value res self))) = monitor_value self
  /\ _real_monitor (fst (fst (get_value res self))) = _real_monitor self
  /\ snd (get_value res self) = []
  /\ (forall apply_to_collection' _get_monitor_value',
        get_monitor_value apply_to_collection' _get_monitor_value' res self
        = get_value res self).
Proof.
  intros Hlen. unfold get_monitor_value. rewrite Hlen. simpl.
  repeat split; reflexivity.
Qed.

(** Whatever the results and however the call ends, only [_real_monitor]
    can change. *)
Lemma get_monitor_value_frame (res : results) (self : HasMonitorCallback) :
  let self' := fst (fst (get_value res self)) in
  type_name self' = type_name self
  /\ monitor self' = monitor self
  /\ larger_better self' = larger_better self
  /\ monitor_value self' = monitor_value self
  /\ must_have_moinitor self' = must_have_moinitor self.
Proof.
  unfold get_monitor_value.
  destruct (length res =? 0)%nat; [repeat split; reflexivity |].
  destruct (apply_to_collection _ _ _) as [res1 | e]; [| repeat split; reflexivity].
  destruct (_get_monitor_value _ _ _) as [[k v] | e]; repeat split; reflexivity.
Qed.

(** One call on non-empty results that resolve to the key [k]. *)
Lemma get_monitor_value_resolved (res : results) (self : HasMonitorCallback)
    (k : option string) (v : metric) :
  res <> [] ->
  resolves res self k v ->
  exists res1 : results,
    apply_to_collection res CanItemDataType (fun x => item x) = Return res1
    /\ get_value res self =
       ({| type_name := type_name self;
           monitor := monitor self;
           larger_better := larger_better self;
           monitor_value := monitor_value self;
           _real_monitor := k;
           must_have_moinitor := must_have_moinitor self |},
        Return v,
        if decide (_real_monitor self = k) then []
        else [ {| requested := monitor self;
                  result_keys := keys res1;
                  substituted := k;
                  callback_type := type_name self |} ]).
Proof.
  intros Hne (res1 & Happly & Hres). exists res1. split; [exact Happly |].
  unfold get_monitor_value.
  destruct res as [| entry res]; [congruence |]. simpl length. simpl Nat.eqb.
  cbv iota. rewrite Happly, Hres.
  destruct (decide (_real_monitor self = k)) as [Heq | Hneq].
  - rewrite bool_decide_eq_false_2 by (intros H; exact (H Heq)). reflexivity.
  - rewrite bool_decide_eq_true_2 by exact Hneq. reflexivity.
Qed.

(** Once [_real_monitor] is [k], calls that keep resolving to [k] log
    nothing and keep it. *)
Lemma get_monitor_value_calls_stable (evals : list results) (self : HasMonitorCallback)
    (k : option string) :
  _real_monitor self = k ->
  Forall (fun res => res <> [] /\
            forall self0, monitor self0 = monitor self -> _real_monitor self0 = k ->
                          exists v, resolves res self0 k v) evals ->
  _real_monitor (fst (fst (get_values evals self))) = k
  /\ Forall (fun log => log = []) (snd (get_values evals self)).
Proof.
  revert self. induction evals as [| res evals IH]; intros self Hk Hall.
  - split; [exact Hk | constructor].
  - inversion Hall as [| ? ? [Hne Hres] Hall']; subst.
    destruct (Hres self eq_refl eq_refl) as [v Hv].
    destruct (get_monitor_value_resolved res self _ v Hne Hv) as (res1 & _ & Hcall).
    rewrite decide_True in Hcall by reflexivity.
    simpl. rewrite Hcall.
    match goal with
    | |- context [get_monitor_value_calls _ _ evals ?s] => specialize (IH s)
    end.
    destruct (get_monitor_value_calls _ _ evals _) as [[self2 outs] logs].
    simpl in *. destruct IH as [IH1 IH2]; [reflexivity | exact Hall' |].
    split; [exact IH1 | constructor; [reflexivity | exact IH2]].
Qed.

(** C5: in a call on non-empty results that resolve to a key, a warning is
    logged if and only if that key differs from the key held in
    [_real_monitor] before the call, at most one warning is logged, it
    names the requested and the substituted key, and after the call
    [_real_monitor] is the key resolved by this call.  So over any run of
    calls that keep resolving to one key, only the first call can warn,
    and it warns only if [_real_monitor] held another key before. *)
Theorem get_monitor_value_warns_on_new_key :
  (forall (res : results) (self : HasMonitorCallback) (k : option string) (v : metric),
     res <> [] ->
     resolves res self k v ->
     let '(self', out, log) := get_value res self in
     out = Return v
     /\ _real_monitor self' = k
     /\ (log <> [] <-> k <> _real_monitor self)
     /\ length log <= 1
     /\ Forall (fun w => requested w = monitor self /\ substituted w = k
                         /\ callback_type w = type_name self) log)
  /\ (forall (res : results) (evals : list results) (self : HasMonitorCallback)
             (k : option string),
        Forall (fun res => res <> [] /\
                  forall self0, monitor self0 = monitor self ->
                                _real_monitor self0 = _real_monitor self
                                \/ _real_monitor self0 = k ->
                                exists v, resolves res self0 k v) (res :: evals) ->
        let '(self', outs, logs) := get_values (res :: evals) self in
        _real_monitor self' = k
        /\ length (concat logs) <= 1
        /\ (concat logs <> [] <-> k <> _real_monitor self)
        /\ Forall (fun log => log = []) (tail logs)).
Proof.
  split.
  - intros res self k v Hne Hres.
    destruct (get_monitor_value_resolved res self k v Hne Hres) as (res1 & _ & ->).
    split; [reflexivity |]. split; [reflexivity |].
    destruct (decide (_real_monitor self = k)) as [Heq | Hneq]; simpl.
    + split; [split; congruence |]. split; [lia | constructor].
    + split; [split; [intros _ H; congruence | discriminate] |].
      split; [lia |]. constructor; [repeat split; reflexivity | constructor].
  - intros res evals self k Hall.
    inversion Hall as [| ? ? [Hne Hres] Hall']; subst.
    destruct (Hres self eq_refl (or_introl eq_refl)) as [v Hv].
    destruct (get_monitor_value_resolved res self k v Hne Hv) as (res1 & _ & Hcall).
    simpl. rewrite Hcall.
    match goal with
    | |- context [get_monitor_value_calls _ _ evals ?s] =>
        pose proof (get_monitor_value_calls_stable evals s k eq_refl) as Hst
    end.
    destruct (get_monitor_value_calls _ _ evals _) as [[self2 outs] logs].
    simpl in Hst. destruct Hst as [Hk Hlogs].
    { eapply Forall_impl; [exact Hall' |]. simpl.
      intros r [Hr Hex]. split; [exact Hr |].
      intros self0 Hm Hk0. apply Hex; [exact Hm | right; exact Hk0]. }
    assert (Hnil : concat logs = []).
    { clear -Hlogs. induction Hlogs as [| l ls -> _ IH]; [reflexivity | exact IH]. }
    simpl. rewrite Hnil, app_nil_r.
    split; [exact Hk |].
    destruct (decide (_real_monitor self = k)) as [Heq | Hneq]; simpl.
    + split; [lia |]. split; [split; congruence | exact Hlogs].
    + split; [lia |].
      split; [split; [intros _ H; congruence | discriminate] | exact Hlogs].
Qed.

End GetMonitorValueProperties.

(** The run of the spec's fixture, with the helpers modelled from the
    spec: [acc] requested, [accuracy] reported twice.  The first call
    substitutes and warns, the second resolves silently. *)
Example get_monitor_value_fuzzy_fixture :
  let self := HasMonitorCallback_init "Checkpoint" (PyStr "acc") (PyBool true) false in
  let evals := [[("accuracy", Tensor (Finite (9 # 10)))];
                [("accuracy", Plain (Finite (95 # 100)))]] in
  let '(self', outs, logs) :=
    get_monitor_value_calls apply_to_collection_flat _get_monitor_value_match evals self in
  _real_monitor self' = Some "accuracy"
  /\ outs = [Return (Plain (Finite (9 # 10))); Return (Plain (Finite (95 # 100)))]
  /\ logs = [[ {| requested := Some "acc"; result_keys := ["accuracy"];
                  substituted := Some "accuracy"; callback_type := "Checkpoint" |} ];
             []].
Proof. vm_compute. repeat split; reflexivity. Qed.

Lemma get_monitor_value_empty_frame_witness :
  let self := HasMonitorCallback_init "Checkpoint" (PyStr "acc") (PyBool true) false in
  snd (get_monitor_value apply_to_collection_flat _get_monitor_value_match [] self) = [].
Proof.
  intros self.
  apply (get_monitor_value_empty_frame apply_to_collection_flat
           _get_monitor_value_match [] self).
  reflexivity.
Defined.

Lemma get_monitor_value_warns_on_new_key_witness :
  let self := HasMonitorCallback_init "Checkpoint" (PyStr "acc") (PyBool true) false in
  let res := [("accuracy", Tensor (Finite (9 # 10)))] in
  let res' := [("accuracy", Plain (Finite (95 # 100)))] in
  (let '(self', out, log) :=
     get_monitor_value apply_to_collection_flat _get_monitor_value_match res self in
   out = Return (Plain (Finite (9 # 10)))
   /\ _real_monitor self' = Some "accuracy"
   /\ (log <> [] <-> Some "accuracy" <> _real_monitor self)
   /\ length log <= 1
   /\ Forall (fun w => requested w = monitor self /\ substituted w = Some "accuracy"
                       /\ callback_type w = type_name self) log)
  /\ (let '(self', outs, logs) :=
        get_monitor_value_calls apply_to_collection_flat _get_monitor_value_match
          [res; res'] self in
      _real_monitor self' = Some "accuracy"
      /\ length (concat logs) <= 1
      /\ (concat logs <> [] <-> Some "accuracy" <> _real_monitor self)
      /\ Forall (fun log => log = []) (tail logs)).
Proof.
  intros self res res'.
  destruct (get_monitor_value_warns_on_new_key apply_to_collection_flat
              _get_monitor_value_match) as [Hone Hrun].
  split.
  - apply (Hone res self (Some "accuracy") (Plain (Finite (9 # 10)))).
    + discriminate.
    + exists [("accuracy", Plain (Finite (9 # 10)))]. split; reflexivity.
  - apply (Hrun res [res'] self (Some "accuracy")).
    constructor; [| constructor; [| constructor]].
    + split; [discriminate |].
      intros self0 Hm Hr. exists (Plain (Finite (9 # 10))).
      exists [("accuracy", Plain (Finite (9 # 10)))].
      split; [reflexivity |].
      rewrite Hm. destruct Hr as [-> | ->]; reflexivity.
    + split; [discriminate |].
      intros self0 Hm Hr. exists (Plain (Finite (95 # 100))).
      exists res'.
      split; [reflexivity |].
      rewrite Hm. destruct Hr as [-> | ->]; reflexivity.
Defined.

(** ** [on_after_trainer_initialized] *)

(** Adoption always leaves a monitor name behind. *)
Lemma set_monitor_monitor_Some (monitor0 larger_better0 : pyobj) (self : HasMonitorCallback) :
  monitor0 <> PyNone ->
  monitor (set_monitor monitor0 larger_better0 self) = Some (py_str monitor0).
Proof. intros H. destruct monitor0; [congruence | reflexivity ..]. Qed.

(** The three ways through the method. *)
Lemma on_after_trainer_initialized_own (trainer : Trainer) (driver : pyobj)
    (self : HasMonitorCallback) (name : string) :
  monitor self = Some name ->
  on_after_trainer_initialized trainer driver self = (self, Return tt).
Proof.
  intros Hm. unfold on_after_trainer_initialized. rewrite Hm. simpl.
  rewrite Hm. simpl. rewrite andb_false_r. reflexivity.
Qed.

Lemma on_after_trainer_initialized_adopt (trainer : Trainer) (driver : pyobj)
    (self : HasMonitorCallback) :
  monitor self = None -> trainer_monitor trainer <> PyNone ->
  on_after_trainer_initialized trainer driver self
  = (set_monitor (trainer_monitor trainer) (trainer_larger_better trainer) self,
     Return tt).
Proof.
  intros Hm Ht. unfold on_after_trainer_initialized. rewrite Hm.
  assert (Hn : is_None (trainer_monitor trainer) = false)
    by (destruct (trainer_monitor trainer); [congruence | reflexivity ..]).
  rewrite Hn. cbn [negb andb bool_decide decide_rel].
  rewrite bool_decide_eq_true_2 by reflexivity. cbn [andb].
  rewrite set_monitor_monitor_Some by exact Ht.
  rewrite bool_decide_eq_false_2 by discriminate.
  rewrite andb_false_r. reflexivity.
Qed.

Lemma on_after_trainer_initialized_unset (trainer : Trainer) (driver : pyobj)
    (self : HasMonitorCallback) :
  monitor self = None -> trainer_monitor trainer = PyNone ->
  on_after_trainer_initialized trainer driver self
  = (self,
     if must_have_moinitor self
     then Raise (RuntimeError
                   ("No `monitor` is set for " ++ type_name self ++ ". "
                    ++ "You can set it in the initialization or through Trainer."))
     else Return tt).
Proof.
  intros Hm Ht. unfold on_after_trainer_initialized. rewrite Hm, Ht. simpl.
  rewrite Hm. simpl. rewrite andb_true_r.
  destruct (must_have_moinitor self); reflexivity.
Qed.

(** C6: [on_after_trainer_initialized] adopts the monitor and the
    direction of the trainer, through [set_monitor], when the tracker has
    no monitor and the trainer's is not [None], and leaves the instance as
    it was otherwise.  It raises a [RuntimeError] exactly when, after that
    step, [must_have_moinitor] is true and the monitor is still unset, and
    the message names the type of the callback.  A tracker constructed
    with [must_have_monitor=True] and no monitor, under a trainer whose
    monitor is [None], fails. *)
Theorem on_after_trainer_initialized_spec (trainer : Trainer) (driver : pyobj)
    (self : HasMonitorCallback) :
  let adopt := monitor self = None /\ trainer_monitor trainer <> PyNone in
  let self' := fst (on_after_trainer_initialized trainer driver self) in
  let out := snd (on_after_trainer_initialized trainer driver self) in
  (adopt -> self' = set_monitor (trainer_monitor trainer)
                      (trainer_larger_better trainer) self)
  /\ (~ adopt -> self' = self)
  /\ ((exists msg, out = Raise (RuntimeError msg))
      <-> must_have_moinitor self' = true /\ monitor self' = None)
  /\ (out = Return tt
      <-> ~ (must_have_moinitor self' = true /\ monitor self' = None))
  /\ (forall e, out = Raise e ->
        e = RuntimeError ("No `monitor` is set for " ++ type_name self ++ ". "
                          ++ "You can set it in the initialization or through Trainer.")
        /\ self' = self
        /\ trainer_monitor trainer = PyNone)
  /\ (forall (cls : string) (larger_better0 : pyobj),
        monitor self = None -> trainer_monitor trainer = PyNone ->
        self = HasMonitorCallback_init cls PyNone larger_better0 true ->
        exists msg, out = Raise (RuntimeError msg)).
Proof.
  intros adopt self' out. subst adopt self' out.
  destruct (monitor self) as [name |] eqn:Hm.
  - rewrite (on_after_trainer_initialized_own trainer driver self name Hm). cbn [fst snd].
    rewrite Hm.
    split; [intros [? _]; discriminate |].
    split; [reflexivity |].
    split; [split; [intros [? ?]; discriminate | intros [_ ?]; discriminate] |].
    split; [split; [intros _ [_ ?]; discriminate | reflexivity] |].
    split; [intros ? ?; discriminate | intros ? ? ?; discriminate].
  - assert (Ht : trainer_monitor trainer = PyNone \/ trainer_monitor trainer <> PyNone)
      by (destruct (trainer_monitor trainer); [left | right ..]; congruence).
    destruct Ht as [Ht | Ht].
    + rewrite (on_after_trainer_initialized_unset trainer driver self Hm Ht). cbn [fst snd].
      rewrite Hm.
      split; [intros [_ ?]; contradiction |].
      split; [reflexivity |].
      destruct (must_have_moinitor self) eqn:Hmust.
      * split; [split; [intros _; split; reflexivity | intros _; eexists; reflexivity] |].
        split; [split; [discriminate | intros H; destruct H; split; reflexivity] |].
        split; [intros e [= <-]; repeat split; try reflexivity; exact Ht |].
        intros _ _ _ _ _. eexists; reflexivity.
      * split; [split; [intros [? ?]; discriminate | intros [? _]; discriminate] |].
        split; [split; [intros _ [? _]; discriminate | reflexivity] |].
        split; [intros ? ?; discriminate |].
        intros cls lb0 _ _ Heq. rewrite Heq in Hmust. discriminate.
    + rewrite (on_after_trainer_initialized_adopt trainer driver self Hm Ht). cbn [fst snd].
      rewrite set_monitor_monitor_Some by exact Ht.
      split; [reflexivity |].
      split; [intros H; destruct H; split; [reflexivity | exact Ht] |].
      split; [split; [intros [? ?]; discriminate | intros [_ ?]; discriminate] |].
      split; [split; [intros _ [_ ?]; discriminate | reflexivity] |].
      split; [intros ? ?; discriminate | intros ? ? _ ?; contradiction].
Qed.

Lemma on_after_trainer_initialized_spec_witness :
  exists msg,
    snd (on_after_trainer_initialized
           {| trainer_monitor := PyNone; trainer_larger_better := PyBool true |} PyNone
           (HasMonitorCallback_init "EarlyStop" PyNone (PyBool true) true))
    = Raise (RuntimeError msg).
Proof.
  pose proof (on_after_trainer_initialized_spec
                {| trainer_monitor := PyNone; trainer_larger_better := PyBool true |}
                PyNone
                (HasMonitorCallback_init "EarlyStop" PyNone (PyBool true) true)) as H.
  cbv zeta in H. destruct H as (_ & _ & _ & _ & _ & H).
  exact (H "EarlyStop" (PyBool true) eq_refl eq_refl eq_refl).
Defined.

(** ** [callback_name] *)

(** C8: the [callback_name] of a plain callback is the name of its type
    (also for a monitor tracker, which inherits the property), while the
    [callback_name] of a function adapter is the name of the function it
    wraps, whatever event it was constructed for: wrapping a function
    named [my_hook] gives [my_hook], not [_CallbackWrapper]. *)
Theorem callback_name_spec :
  (forall c : PlainCallback, callback_name c = plain_type_name c)
  /\ (forall c : HasMonitorCallback, callback_name c = type_name c)
  /\ (forall (event : event_arg) (fn0 : pyfunction) (st : store),
        callback_name (fst (_CallbackWrapper_init event fn0 st)) = __name__ fn0)
  /\ (forall (event : event_arg) (f : list pyobj -> pyobj) (st : store),
        let w := fst (_CallbackWrapper_init event {| __name__ := "my_hook"; body := f |} st) in
        callback_name w = "my_hook" /\ callback_name w <> "_CallbackWrapper").
Proof.
  assert (Hfn : forall fn0 events w st,
             fn (fst (foldl (bind_event fn0) (w, st) events)) = fn w).
  { intros fn0 events. induction events as [| e events IH]; intros w st.
    - reflexivity.
    - simpl. rewrite IH. reflexivity. }
  assert (Hname : forall event fn0 st,
             callback_name (fst (_CallbackWrapper_init event fn0 st)) = __name__ fn0).
  { intros [events | event |] fn0 st; simpl.
    - rewrite Hfn. reflexivity.
    - reflexivity.
    - reflexivity. }
  split; [reflexivity |]. split; [reflexivity |]. split; [exact Hname |].
  intros event f st w. subst w. rewrite Hname. simpl. split; [reflexivity | discriminate].
Qed.

(** ** [_CallbackWrapper.__init__] *)

Lemma bind_event_eq (fn0 : pyfunction) (w : _CallbackWrapper) (st : store)
    (e : _SingleEventState) :
  bind_event fn0 (w, st) e
  = ({| fn := fn w; attrs := <[value e := Filter_call (length st) fn0]> (attrs w) |},
     (st ++ [Filter_of e])%list).
Proof. reflexivity. Qed.

(** What the loop over the events builds: one fresh filter per event, in
    order, behind the filters that were there; and for every event name
    the callable made by the filter of the last event of that name. *)
Lemma foldl_bind_event (fn0 : pyfunction) (events : list _SingleEventState) :
  forall (w : _CallbackWrapper) (st : store),
    let r := foldl (bind_event fn0) (w, st) events in
    fn (fst r) = fn w
    /\ snd r = (st ++ ((fun e => Filter_of e) <$> events))%list
    /\ dom (attrs (fst r)) = dom (attrs w) ∪ list_to_set (value <$> events)
    /\ (forall name : string, name ∉ (value <$> events) ->
          attrs (fst r) !! name = attrs w !! name)
    /\ (forall (i : nat) (e : _SingleEventState),
          events !! i = Some e ->
          (forall j e', events !! j = Some e' -> i < j -> value e' <> value e) ->
          attrs (fst r) !! value e = Some (Filter_call (length st + i) fn0)).
Proof.
  induction events as [| e0 events IH]; intros w st r; subst r.
  - simpl. split; [reflexivity |]. split; [rewrite app_nil_r; reflexivity |].
    split; [rewrite union_empty_r_L; reflexivity |].
    split; [reflexivity |]. intros i e H. discriminate.
  - cbn [foldl]. rewrite bind_event_eq.
    match goal with
    | |- context [foldl _ (?w1, ?st1) events] =>
        destruct (IH w1 st1) as (Hfn & Hst & Hdom & Hout & Hin)
    end.
    split; [exact Hfn |].
    split; [rewrite Hst, <- app_assoc; reflexivity |].
    split.
    { rewrite Hdom. cbn [attrs]. rewrite dom_insert_L, fmap_cons, list_to_set_cons.
      rewrite (assoc_L (∪)), (comm_L (∪) {[value e0]}). reflexivity. }
    split.
    + intros name Hname. rewrite fmap_cons in Hname.
      apply not_elem_of_cons in Hname as [Hne Hname].
      rewrite (Hout name Hname). cbn [attrs]. apply lookup_insert_ne. congruence.
    + intros [| i] e Hi Hlater.
      * injection Hi as ->.
        rewrite Hout.
        { cbn [attrs]. rewrite lookup_insert_eq, Nat.add_0_r. reflexivity. }
        intros Hel. apply list_elem_of_fmap in Hel as (e' & Heq & Hel).
        apply list_elem_of_lookup in Hel as [j Hj].
        apply (Hlater (S j) e' Hj); [lia | congruence].
      * rewrite (Hin i e Hi).
        { rewrite length_app. simpl. f_equal. f_equal. lia. }
        intros j e' Hj Hlt. apply (Hlater (S j) e' Hj). lia.
Qed.

Lemma invoke_other (h : filtered) (args : list pyobj) (st : store) (a : nat) :
  a <> closure_filter h -> fst (invoke h args st) !! a = st !! a.
Proof.
  intros Hne. unfold invoke.
  destruct (st !! closure_filter h) as [f |]; [| reflexivity].
  simpl. apply list_lookup_insert_ne. congruence.
Qed.

Lemma invoke_counts (h : filtered) (args : list pyobj) (st : store) (f : Filter) :
  st !! closure_filter h = Some f ->
  fst (invoke h args st) !! closure_filter h
  = Some {| _every := _every f; _once := _once f; _filter_fn := _filter_fn f;
            num_called := num_called f + 1 |}.
Proof.
  intros Hf. unfold invoke. rewrite Hf. simpl.
  apply list_lookup_insert_eq. eapply lookup_lt_Some. exact Hf.
Qed.

(** C9: constructing the adapter for one event, or for an [EventsList],
    sets on the fresh instance one attribute per target event, named by the
    [value] of the event, that holds the function wrapped by a filter
    constructed in this call from the [every], [once] and [filter_fn] of
    that event (when a name occurs more than once in the list, the
    attribute holds the callable of its last occurrence).  Every event
    gets a filter instance of its own, with its counter at zero; so the
    callables bound to two different events count their calls
    independently: invoking one moves its own counter from 0 to 1 and
    leaves the filter of the other as it was. *)
Theorem CallbackWrapper_init_binds (fn0 : pyfunction) (st : store) :
  (forall event : _SingleEventState,
     _CallbackWrapper_init (IsSingleEventState event) fn0 st
     = ({| fn := fn0; attrs := {[ value event := Filter_call (length st) fn0 ]} |},
        (st ++ [Filter_of event])%list))
  /\ (forall events : list _SingleEventState,
        let w := fst (_CallbackWrapper_init (IsEventsList events) fn0 st) in
        let st' := snd (_CallbackWrapper_init (IsEventsList events) fn0 st) in
        fn w = fn0
        /\ dom (attrs w) = list_to_set (value <$> events)
        /\ st' = (st ++ ((fun e => Filter_of e) <$> events))%list
        /\ (forall (i : nat) (e : _SingleEventState),
              events !! i = Some e ->
              (forall j e', events !! j = Some e' -> i < j -> value e' <> value e) ->
              attrs w !! value e = Some (Filter_call (length st + i) fn0)
              /\ st' !! (length st + i) = Some (Filter_of e)
              /\ st !! (length st + i) = None))
  /\ (forall (events : list _SingleEventState) (i j : nat)
             (ei ej : _SingleEventState) (args : list pyobj),
        NoDup (value <$> events) ->
        events !! i = Some ei -> events !! j = Some ej -> i <> j ->
        let w := fst (_CallbackWrapper_init (IsEventsList events) fn0 st) in
        let st' := snd (_CallbackWrapper_init (IsEventsList events) fn0 st) in
        exists hi hj : filtered,
          attrs w !! value ei = Some hi /\ attrs w !! value ej = Some hj
          /\ value ei <> value ej
          /\ wrapped hi = fn0 /\ wrapped hj = fn0
          /\ closure_filter hi <> closure_filter hj
          /\ st' !! closure_filter hi = Some (Filter_of ei)
          /\ st' !! closure_filter hj = Some (Filter_of ej)
          /\ num_called <$> fst (invoke hi args st') !! closure_filter hi = Some 1%Z
          /\ fst (invoke hi args st') !! closure_filter hj = Some (Filter_of ej)).
Proof.
  assert (Hlist : forall events : list _SingleEventState,
    let w := fst (_CallbackWrapper_init (IsEventsList events) fn0 st) in
    let st' := snd (_CallbackWrapper_init (IsEventsList events) fn0 st) in
    fn w = fn0
    /\ dom (attrs w) = list_to_set (value <$> events)
    /\ st' = (st ++ ((fun e => Filter_of e) <$> events))%list
    /\ (forall (i : nat) (e : _SingleEventState),
          events !! i = Some e ->
          (forall j e', events !! j = Some e' -> i < j -> value e' <> value e) ->
          attrs w !! value e = Some (Filter_call (length st + i) fn0)
          /\ st' !! (length st + i) = Some (Filter_of e)
          /\ st !! (length st + i) = None)).
  { intros events w st'. subst w st'. cbn [_CallbackWrapper_init].
    destruct (foldl_bind_event fn0 events {| fn := fn0; attrs := ∅ |} st)
      as (Hfn & Hst & Hdom & _ & Hin).
    split; [exact Hfn |].
    split; [rewrite Hdom; cbn [attrs]; rewrite dom_empty_L, union_empty_l_L; reflexivity |].
    split; [exact Hst |].
    intros i e Hi Hlater.
    split; [exact (Hin i e Hi Hlater) |].
    split.
    - rewrite Hst, lookup_app_r by lia.
      replace (length st + i - length st) with i by lia.
      rewrite list_lookup_fmap, Hi. reflexivity.
    - apply lookup_ge_None. lia. }
  split; [| split; [exact Hlist |]].
  - intros event. cbn [_CallbackWrapper_init]. rewrite bind_event_eq.
    cbn [fn attrs]. rewrite insert_empty. reflexivity.
  - intros events i j ei ej args Hnd Hi Hj Hij w st'.
    assert (Hval : forall a b ea eb, events !! a = Some ea -> events !! b = Some eb ->
                                     value ea = value eb -> a = b).
    { intros a b ea eb Ha Hb Heq.
      apply (NoDup_lookup _ a b (value ea) Hnd).
      - rewrite list_lookup_fmap, Ha. reflexivity.
      - rewrite list_lookup_fmap, Hb, Heq. reflexivity. }
    destruct (Hlist events) as (_ & _ & _ & Hbind).
    fold w st' in Hbind.
    destruct (Hbind i ei Hi) as (Hai & Hsi & _).
    { intros k e' Hk Hlt Heq. pose proof (Hval _ _ _ _ Hk Hi Heq). lia. }
    destruct (Hbind j ej Hj) as (Haj & Hsj & _).
    { intros k e' Hk Hlt Heq. pose proof (Hval _ _ _ _ Hk Hj Heq). lia. }
    exists (Filter_call (length st + i) fn0), (Filter_call (length st + j) fn0).
    cbn [closure_filter wrapped Filter_call].
    split; [exact Hai |]. split; [exact Haj |].
    split; [intros Heq; exact (Hij (Hval _ _ _ _ Hi Hj Heq)) |].
    split; [reflexivity |]. split; [reflexivity |].
    split; [lia |]. split; [exact Hsi |]. split; [exact Hsj |].
    split.
    + pose proof (invoke_counts (Filter_call (length st + i) fn0) args st' _ Hsi) as Hc.
      cbn [closure_filter wrapped Filter_call] in Hc. rewrite Hc. reflexivity.
    + pose proof (invoke_other (Filter_call (length st + i) fn0) args st'
                    (length st + j)) as Ho.
      cbn [closure_filter wrapped Filter_call] in Ho. rewrite Ho by lia.
      exact Hsj.
Qed.

Lemma CallbackWrapper_init_binds_witness :
  let on_begin := {| value := "on_train_begin"; every := None; once := Some 1%Z;
                     filter_fn := None |} in
  let on_batch := {| value := "on_train_batch_end"; every := Some 2%Z; once := None;
                     filter_fn := None |} in
  let my_hook := {| __name__ := "my_hook"; body := fun _ => PyNone |} in
  let w := fst (_CallbackWrapper_init (IsEventsList [on_begin; on_batch]) my_hook []) in
  let st' := snd (_CallbackWrapper_init (IsEventsList [on_begin; on_batch]) my_hook []) in
  exists hi hj : filtered,
    attrs w !! "on_train_begin" = Some hi /\ attrs w !! "on_train_batch_end" = Some hj
    /\ "on_train_begin" <> "on_train_batch_end"
    /\ wrapped hi = my_hook /\ wrapped hj = my_hook
    /\ closure_filter hi <> closure_filter hj
    /\ st' !! closure_filter hi = Some (Filter_init None (Some 1%Z) None)
    /\ st' !! closure_filter hj = Some (Filter_init (Some 2%Z) None None)
    /\ num_called <$> fst (invoke hi [] st') !! closure_filter hi = Some 1%Z
    /\ fst (invoke hi [] st') !! closure_filter hj
       = Some (Filter_init (Some 2%Z) None None).
Proof.
  intros on_begin on_batch my_hook.
  apply (proj2 (proj2 (CallbackWrapper_init_binds my_hook []))
           [on_begin; on_batch] 0 1 on_begin on_batch []).
  - cbn. apply NoDup_cons. split; [| apply NoDup_singleton].
    intros H. apply list_elem_of_singleton in H. discriminate.
  - reflexivity.
  - reflexivity.
  - lia.
Defined.

(** * Further properties of the tracker *)

(** ** The stored value as a running best *)

Lemma is_former_monitor_value_better_dir (s1 s2 : HasMonitorCallback) (a b : pynum) :
  larger_better s1 = larger_better s2 ->
  is_former_monitor_value_better s1 a b = is_former_monitor_value_better s2 a b.
Proof. intros H. unfold is_former_monitor_value_better. rewrite H. reflexivity. Qed.

(** What one call stores: nothing, or its own value when asked to keep. *)
Lemma is_better_monitor_value_stored (v : pynum) (keep : bool) (self : HasMonitorCallback) :
  let self' := fst (is_better_monitor_value v keep self) in
  (self' = self
   /\ (keep = false \/ is_former_monitor_value_better self v (monitor_value self) = false))
  \/ (monitor_value self' = v /\ keep = true
      /\ is_former_monitor_value_better self v (monitor_value self) = true).
Proof.
  unfold is_better_monitor_value. cbn [fst].
  destruct keep; [| left; split; [reflexivity | left; reflexivity]].
  destruct (is_former_monitor_value_better self v (monitor_value self)) eqn:E.
  - right. repeat split; reflexivity.
  - left. split; [reflexivity | right; reflexivity].
Qed.

(** A value offered with [keep_if_better] is not better than what is
    stored after the call. *)
Lemma is_better_monitor_value_kept (v : pynum) (self : HasMonitorCallback) :
  ~ better_than self v (monitor_value (fst (is_better_monitor_value v true self))).
Proof.
  destruct (is_better_monitor_value_stored v true self) as [[-> H] | (-> & _ & _)].
  - destruct H as [H | H]; [discriminate |].
    intros Hb. apply is_former_monitor_value_better_true in Hb. congruence.
  - apply better_than_irrefl.
Qed.

Lemma not_better_than_later (self : HasMonitorCallback) (v m1 m2 : pynum) :
  ~ better_than self v m1 ->
  m2 = m1 \/ better_than self m2 m1 ->
  ~ better_than self v m2.
Proof.
  intros Hn [-> | Hb] Hv; [exact (Hn Hv) |].
  exact (Hn (better_than_trans self v m2 m1 Hv Hb)).
Qed.

(** X1: after any run of [is_better_monitor_value] calls, the stored
    [monitor_value] is a running best: no value that was offered with
    [keep_if_better] is better than it, and it is either the value stored
    before the run or one of the values offered with [keep_if_better]. *)
Theorem is_better_monitor_value_calls_running_best (calls : list (pynum * bool))
    (self : HasMonitorCallback) :
  let self' := fst (is_better_monitor_value_calls calls self) in
  (forall v : pynum, (v, true) ∈ calls ->
     is_former_monitor_value_better self v (monitor_value self') = false)
  /\ (monitor_value self' = monitor_value self
      \/ (monitor_value self', true) ∈ calls).
Proof.
  revert self. induction calls as [| [v0 k0] calls IH]; intros self.
  - split; [intros v Hv; inversion Hv | left; reflexivity].
  - cbv zeta. rewrite is_better_monitor_value_calls_cons.
    pose proof (is_better_monitor_value_frame v0 k0 self) as (_ & _ & Hdir & _).
    pose proof (is_better_monitor_value_stored v0 k0 self) as Hstored.
    pose proof (is_better_monitor_value_kept v0 self) as Hkept.
    destruct (is_better_monitor_value v0 k0 self) as [self1 b] eqn:E1.
    cbn [fst] in Hdir, Hstored.
    pose proof (is_better_monitor_value_calls_monotone calls self1) as [_ Hmono].
    specialize (IH self1).
    destruct (is_better_monitor_value_calls calls self1) as [self2 flags].
    cbn [fst] in *. destruct IH as [IH1 IH2].
    assert (Hd : forall a c, better_than self1 a c <-> better_than self a c).
    { intros a c. unfold better_than. rewrite Hdir. tauto. }
    split.
    + intros v Hv. apply elem_of_cons in Hv as [[= -> <-] | Hv].
      * destruct (is_former_monitor_value_better self v0 (monitor_value self2)) eqn:Hb;
          [| reflexivity].
        apply is_former_monitor_value_better_true in Hb.
        rewrite E1 in Hkept. cbn [fst] in Hkept.
        exfalso. refine (not_better_than_later self v0 _ _ Hkept _ Hb).
        destruct Hmono as [Hm | Hm]; [left; exact Hm | right; apply Hd; exact Hm].
      * rewrite <- (is_former_monitor_value_better_dir self1 self _ _ Hdir).
        exact (IH1 v Hv).
    + destruct IH2 as [IH2 | IH2].
      * rewrite IH2.
        destruct Hstored as [[-> _] | (Hv & -> & _)];
          [left; reflexivity | right; rewrite Hv; left].
      * right. right. exact IH2.
Qed.

Lemma is_better_monitor_value_calls_running_best_witness :
  let self := HasMonitorCallback_init "Checkpoint" (PyStr "loss") (PyBool false) false in
  let calls := [(Finite 4, true); (Finite 1, false); (Finite 2, true)] in
  is_former_monitor_value_better self (Finite 4)
    (monitor_value (fst (is_better_monitor_value_calls calls self))) = false.
Proof.
  intros self calls.
  apply (proj1 (is_better_monitor_value_calls_running_best calls self) (Finite 4)).
  left.
Defined.

(** X2: offering the same value twice never counts as a second
    improvement: right after a call with [keep_if_better], a call with the
    same value returns false and leaves the instance as it is. *)
Theorem is_better_monitor_value_twice (v : pynum) (keep : bool) (self : HasMonitorCallback) :
  let self1 := fst (is_better_monitor_value v true self) in
  is_better_monitor_value v keep self1 = (self1, false).
Proof.
  cbv zeta.
  pose proof (is_better_monitor_value_kept v self) as Hkept.
  pose proof (is_better_monitor_value_frame v true self) as (_ & _ & Hdir & _).
  cbv zeta in Hdir.
  set (self1 := fst (is_better_monitor_value v true self)) in *.
  assert (Hb : is_former_monitor_value_better self1 v (monitor_value self1) = false).
  { rewrite (is_former_monitor_value_better_dir self1 self _ _ Hdir).
    destruct (is_former_monitor_value_better self v (monitor_value self1)) eqn:E;
      [| reflexivity].
    apply is_former_monitor_value_better_true in E. destruct (Hkept E). }
  unfold is_better_monitor_value at 1. rewrite Hb, andb_false_r. reflexivity.
Qed.

(** X3: with [keep_if_better=False] the method is a pure query: a run of
    such calls leaves the instance exactly as it was, and every call
    returns the comparison of its value against the value stored before
    the run. *)
Theorem is_better_monitor_value_calls_query (calls : list (pynum * bool))
    (self : HasMonitorCallback) :
  Forall (fun c => snd c = false) calls ->
  is_better_monitor_value_calls calls self
  = (self,
     (fun c => is_former_monitor_value_better self (fst c) (monitor_value self)) <$> calls).
Proof.
  induction 1 as [| [v keep] calls Hc _ IH]; [reflexivity |].
  simpl in Hc. subst keep.
  rewrite is_better_monitor_value_calls_cons.
  unfold is_better_monitor_value at 1. cbn [andb].
  rewrite IH. reflexivity.
Qed.

Lemma is_better_monitor_value_calls_query_witness :
  let self := HasMonitorCallback_init "Checkpoint" (PyStr "acc") (PyBool true) false in
  is_better_monitor_value_calls [(Finite 3, false); (Finite 7, false)] self
  = (self, [true; true]).
Proof.
  intros self.
  apply (is_better_monitor_value_calls_query [(Finite 3, false); (Finite 7, false)] self).
  repeat constructor.
Defined.

(** ** Invariants over arbitrary call sequences *)

Lemma is_former_monitor_value_better_NaN (self : HasMonitorCallback) (b : pynum) :
  is_former_monitor_value_better self NaN b = false.
Proof.
  unfold is_former_monitor_value_better.
  destruct (larger_better self), b; reflexivity.
Qed.

(** The instance after [on_after_trainer_initialized]: as it was, or reset
    to the settings of the trainer. *)
Lemma on_after_trainer_initialized_state (trainer : Trainer) (driver : pyobj)
    (self : HasMonitorCallback) :
  fst (on_after_trainer_initialized trainer driver self) = self
  \/ (monitor self = None /\ trainer_monitor trainer <> PyNone
      /\ on_after_trainer_initialized trainer driver self
         = (set_monitor (trainer_monitor trainer) (trainer_larger_better trainer) self,
            Return tt)).
Proof.
  destruct (monitor self) as [name |] eqn:Hm.
  - left. rewrite (on_after_trainer_initialized_own trainer driver self name Hm).
    reflexivity.
  - assert (Ht : trainer_monitor trainer = PyNone \/ trainer_monitor trainer <> PyNone)
      by (destruct (trainer_monitor trainer); [left | right ..]; congruence).
    destruct Ht as [Ht | Ht].
    + left. rewrite (on_after_trainer_initialized_unset trainer driver self Hm Ht).
      reflexivity.
    + right. split; [reflexivity |]. split; [exact Ht |].
      apply on_after_trainer_initialized_adopt; assumption.
Qed.

Section TrackerCallsProperties.

Variable apply_to_collection :
  results -> (metric -> bool) -> (metric -> outcome metric) -> outcome results.
Variable _get_monitor_value :
  option string -> option string -> results -> outcome (option string * metric).

#[local] Abbreviation get_value := (get_monitor_value apply_to_collection _get_monitor_value).
#[local] Abbreviation step := (tracker_step apply_to_collection _get_monitor_value).
#[local] Abbreviation run := (tracker_run apply_to_collection _get_monitor_value).

Lemma tracker_run_cons (c : tracker_call) (calls : list tracker_call)
    (self : HasMonitorCallback) :
  run (c :: calls) self = run calls (step self c).
Proof. reflexivity. Qed.

(** No method assigns the type or [must_have_moinitor]. *)
Lemma tracker_step_frame (c : tracker_call) (self : HasMonitorCallback) :
  type_name (step self c) = type_name self
  /\ must_have_moinitor (step self c) = must_have_moinitor self.
Proof.
  destruct c as [m lb | trainer driver | res | v keep]; cbn [tracker_step].
  - split; reflexivity.
  - destruct (on_after_trainer_initialized_state trainer driver self)
      as [-> | (_ & _ & ->)]; split; reflexivity.
  - pose proof (get_monitor_value_frame apply_to_collection _get_monitor_value res self)
      as (H1 & _ & _ & _ & H2).
    split; assumption.
  - pose proof (is_better_monitor_value_frame v keep self) as (H1 & _ & _ & _ & H2).
    split; assumption.
Qed.

Lemma tracker_run_frame (calls : list tracker_call) (self : HasMonitorCallback) :
  type_name (run calls self) = type_name self
  /\ must_have_moinitor (run calls self) = must_have_moinitor self.
Proof.
  revert self. induction calls as [| c calls IH]; intros self.
  - split; reflexivity.
  - rewrite tracker_run_cons.
    destruct (IH (step self c)) as [H1 H2].
    destruct (tracker_step_frame c self) as [H3 H4].
    split; congruence.
Qed.

(** X4: the [callback_name] of a tracker, which keys its checkpoint state,
    and its [must_have_moinitor] requirement are fixed at construction: no
    sequence of [set_monitor], [on_after_trainer_initialized],
    [get_monitor_value] and [is_better_monitor_value] calls changes them,
    whether the calls return or raise. *)
Theorem tracker_run_callback_name (calls : list tracker_call) (self : HasMonitorCallback) :
  callback_name (run calls self) = callback_name self
  /\ must_have_moinitor (run calls self) = must_have_moinitor self.
Proof.
  destruct (tracker_run_frame calls self) as [H1 H2].
  split; [exact H1 | exact H2].
Qed.

(** X5: [set_monitor] is a full reset: after any sequence of calls it
    leaves the instance exactly as it would have left the initial one, so
    nothing of the best value, of the resolved key or of an earlier
    monitor survives it. *)
Theorem set_monitor_forgets (calls : list tracker_call) (monitor0 larger_better0 : pyobj)
    (self : HasMonitorCallback) :
  set_monitor monitor0 larger_better0 (run calls self)
  = set_monitor monitor0 larger_better0 self.
Proof.
  destruct (tracker_run_frame calls self) as [H1 H2].
  apply set_monitor_overwrites; assumption.
Qed.

Lemma tracker_step_not_NaN (c : tracker_call) (self : HasMonitorCallback) :
  monitor_value self <> NaN -> monitor_value (step self c) <> NaN.
Proof.
  intros Hn.
  destruct c as [m lb | trainer driver | res | v keep]; cbn [tracker_step].
  - unfold set_monitor. cbn [monitor_value]. destruct (py_bool lb); discriminate.
  - destruct (on_after_trainer_initialized_state trainer driver self)
      as [-> | (_ & _ & ->)]; [exact Hn |].
    cbn [fst]. unfold set_monitor. cbn [monitor_value].
    destruct (py_bool _); discriminate.
  - pose proof (get_monitor_value_frame apply_to_collection _get_monitor_value res self)
      as (_ & _ & _ & -> & _).
    exact Hn.
  - destruct (is_better_monitor_value_stored v keep self) as [[-> _] | (-> & _ & Hb)];
      [exact Hn |].
    intros ->. rewrite is_former_monitor_value_better_NaN in Hb. discriminate.
Qed.

(** X6: a tracker never takes [nan] as its best value.  The constructor
    stores an infinity, and from a stored value that is not [nan] no
    sequence of calls leads to a stored [nan], whatever values are
    offered to [is_better_monitor_value]. *)
Theorem tracker_run_not_NaN :
  (forall (cls : string) (monitor0 larger_better0 : pyobj) (must : bool),
     monitor_value (HasMonitorCallback_init cls monitor0 larger_better0 must) <> NaN)
  /\ (forall (calls : list tracker_call) (self : HasMonitorCallback),
        monitor_value self <> NaN -> monitor_value (run calls self) <> NaN).
Proof.
  split.
  - intros cls m lb must. unfold HasMonitorCallback_init, set_monitor.
    cbn [monitor_value]. destruct (py_bool lb); discriminate.
  - intros calls. induction calls as [| c calls IH]; intros self Hn; [exact Hn |].
    rewrite tracker_run_cons. apply IH. apply tracker_step_not_NaN. exact Hn.
Qed.

(** X7: once a tracker has a monitor, only [set_monitor] can change its
    name or direction or make the stored value worse.  Along any sequence
    of the other calls, interleaved in any order, the monitor and the
    direction stay as they are and [monitor_value] is what it was or a
    strictly better value. *)
Theorem tracker_run_monotone (calls : list tracker_call) (self : HasMonitorCallback) :
  monitor self <> None ->
  Forall (fun c => is_Call_set_monitor c = false) calls ->
  monitor (run calls self) = monitor self
  /\ larger_better (run calls self) = larger_better self
  /\ (monitor_value (run calls self) = monitor_value self
      \/ better_than self (monitor_value (run calls self)) (monitor_value self)).
Proof.
  intros Hm Hall. revert self Hm.
  induction Hall as [| c calls Hc _ IH]; intros self Hm.
  - repeat split; try reflexivity. left; reflexivity.
  - rewrite tracker_run_cons.
    assert (Hstep : monitor (step self c) = monitor self
                    /\ larger_better (step self c) = larger_better self
                    /\ (monitor_value (step self c) = monitor_value self
                        \/ better_than self (monitor_value (step self c))
                             (monitor_value self))).
    { destruct c as [m lb | trainer driver | res | v keep]; cbn [tracker_step].
      - discriminate.
      - destruct (monitor self) as [name |] eqn:Hname; [| congruence].
        rewrite (on_after_trainer_initialized_own trainer driver self name Hname).
        cbn [fst]. rewrite Hname. repeat split; try reflexivity. left; reflexivity.
      - pose proof (get_monitor_value_frame apply_to_collection _get_monitor_value
                      res self) as (_ & H1 & H2 & H3 & _).
        split; [exact H1 |]. split; [exact H2 |]. left. exact H3.
      - pose proof (is_better_monitor_value_frame v keep self) as (_ & H1 & H2 & _).
        split; [exact H1 |]. split; [exact H2 |].
        apply is_better_monitor_value_step. }
    destruct Hstep as (Hs1 & Hs2 & Hs3).
    destruct (IH (step self c)) as (H1 & H2 & H3); [congruence |].
    split; [congruence |]. split; [congruence |].
    assert (Hd : forall a b, better_than (step self c) a b -> better_than self a b).
    { intros a b. unfold better_than. rewrite Hs2. tauto. }
    destruct H3 as [H3 | H3].
    + rewrite H3. exact Hs3.
    + apply Hd in H3. right.
      destruct Hs3 as [<- | Hs3]; [exact H3 |].
      eapply better_than_trans; eassumption.
Qed.

End TrackerCallsProperties.

Lemma tracker_run_monotone_witness :
  let self := HasMonitorCallback_init "Checkpoint" (PyStr "acc") (PyBool true) false in
  let calls := [Call_is_better_monitor_value (Finite 5) true;
                Call_get_monitor_value [("accuracy", Tensor (Finite 3))];
                Call_on_after_trainer_initialized
                  {| trainer_monitor := PyStr "loss";
                     trainer_larger_better := PyBool false |} PyNone;
                Call_is_better_monitor_value (Finite 3) true] in
  monitor (tracker_run apply_to_collection_flat _get_monitor_value_match calls self)
  = monitor self.
Proof.
  intros self calls.
  apply (tracker_run_monotone apply_to_collection_flat _get_monitor_value_match
           calls self).
  - discriminate.
  - repeat constructor.
Defined.

(** ** More on [get_monitor_value] *)

Section GetMonitorValueRuns.

Variable apply_to_collection :
  results -> (metric -> bool) -> (metric -> outcome metric) -> outcome results.
Variable _get_monitor_value :
  option string -> option string -> results -> outcome (option string * metric).

#[local] Abbreviation get_value := (get_monitor_value apply_to_collection _get_monitor_value).
#[local] Abbreviation get_values :=
  (get_monitor_value_calls apply_to_collection _get_monitor_value).

(** X8: a [get_monitor_value] call that raises, in the normalisation of
    the results or in the name resolution, has no effect on the tracker:
    the instance is exactly as before and nothing is logged.  The key
    remembered in [_real_monitor] changes only in a call that returns. *)
Theorem get_monitor_value_raise (res : results) (self : HasMonitorCallback) (e : exn) :
  snd (fst (get_value res self)) = Raise e ->
  get_value res self = (self, Raise e, []).
Proof.
  unfold get_monitor_value.
  destruct (length res =? 0)%nat; [discriminate |].
  destruct (apply_to_collection _ _ _) as [res1 | e1]; [| intros [= ->]; reflexivity].
  destruct (_get_monitor_value _ _ _) as [[k v] | e1]; [discriminate |].
  intros [= ->]. reflexivity.
Qed.

(** X9: [get_monitor_value] and [is_better_monitor_value] do not
    interfere: the first reads and writes only the names, the second only
    the direction and the stored value.  In either order the two calls
    return the same results, log the same warnings and leave the same
    instance. *)
Theorem get_monitor_value_is_better_commute (res : results) (v : pynum) (keep : bool)
    (self : HasMonitorCallback) :
  let got := get_value res self in
  let cmp := is_better_monitor_value v keep self in
  snd (is_better_monitor_value v keep (fst (fst got))) = snd cmp
  /\ snd (fst (get_value res (fst cmp))) = snd (fst got)
  /\ snd (get_value res (fst cmp)) = snd got
  /\ fst (is_better_monitor_value v keep (fst (fst got))) = fst (fst (get_value res (fst cmp))).
Proof.
  destruct self as [cls m lb mv rm must].
  unfold is_better_monitor_value, get_monitor_value, is_former_monitor_value_better.
  cbn [fst snd larger_better monitor_value monitor _real_monitor type_name
       must_have_moinitor].
  destruct (keep && _) eqn:Hk;
    cbn [fst snd larger_better monitor_value monitor _real_monitor type_name
         must_have_moinitor];
    (destruct (length res =? 0)%nat;
     [ cbn [fst snd larger_better monitor_value]; rewrite ?Hk; repeat split; reflexivity |]);
    (destruct (apply_to_collection _ _ _) as [res1 | e1];
     [| cbn [fst snd larger_better monitor_value]; rewrite ?Hk; repeat split; reflexivity ]);
    (destruct (_get_monitor_value _ _ _) as [[k x] | e1];
     cbn [fst snd larger_better monitor_value]; rewrite ?Hk; repeat split; reflexivity).
Qed.

Lemma last_cons_default (k : option string) (ks : list (option string))
    (d : option string) :
  default d (last (k :: ks)) = default k (last ks).
Proof. rewrite last_cons. destruct (last ks); reflexivity. Qed.

(** X10: along a run of [get_monitor_value] calls on non-empty results
    that all resolve, the calls that warn are exactly the calls whose
    resolved key differs from the key resolved by the call before (for the
    first call, from the key held at the start), one warning each; this
    includes a call that resolves back to the requested name after a
    substitution.  No call raises, and at the end [_real_monitor] is the
    key of the last call. *)
Theorem get_monitor_value_calls_key_changes (evals : list results)
    (ks : list (option string)) (self : HasMonitorCallback) :
  resolves_run apply_to_collection _get_monitor_value evals ks
    (monitor self) (_real_monitor self) ->
  let '(self', outs, logs) := get_values evals self in
  length <$> logs = key_changes (_real_monitor self) ks
  /\ Forall (fun out => exists v, out = Return v) outs
  /\ _real_monitor self' = default (_real_monitor self) (last ks).
Proof.
  revert ks self. induction evals as [| res evals IH]; intros [| k ks] self Hrun;
    cbn [resolves_run] in Hrun; try contradiction.
  - repeat split. constructor.
  - destruct Hrun as (Hne & (res1 & v & Happly & Hres) & Hrest).
    destruct (get_monitor_value_resolved apply_to_collection _get_monitor_value
                res self k v Hne) as (res1' & _ & Hcall).
    { exists res1. split; assumption. }
    cbn [get_monitor_value_calls]. rewrite Hcall.
    match goal with
    | |- context [get_monitor_value_calls _ _ evals ?s] => specialize (IH ks s Hrest)
    end.
    destruct (get_monitor_value_calls _ _ evals _) as [[self2 outs] logs].
    cbn [_real_monitor] in IH. destruct IH as (IH1 & IH2 & IH3).
    split; [| split].
    + rewrite fmap_cons. cbn [key_changes]. rewrite IH1.
      destruct (decide (_real_monitor self = k)); reflexivity.
    + constructor; [eexists; reflexivity | exact IH2].
    + rewrite IH3. symmetry. apply last_cons_default.
Qed.

End GetMonitorValueRuns.

Lemma get_monitor_value_raise_witness :
  let self := HasMonitorCallback_init "Checkpoint" (PyStr "f1") (PyBool true) false in
  get_monitor_value apply_to_collection_flat _get_monitor_value_match
    [("loss", Plain (Finite 2))] self
  = (self, Raise (PyExc "KeyError" "f1"), []).
Proof.
  intros self.
  apply (get_monitor_value_raise apply_to_collection_flat _get_monitor_value_match
           [("loss", Plain (Finite 2))] self (PyExc "KeyError" "f1")).
  reflexivity.
Defined.

Lemma get_monitor_value_calls_key_changes_witness :
  let self := HasMonitorCallback_init "Checkpoint" (PyStr "acc") (PyBool true) false in
  let evals := [[("accuracy", Plain (Finite (9 # 10)))];
                [("accuracy", Plain (Finite (9 # 10))); ("acc", Plain (Finite (8 # 10)))];
                [("acc", Plain (Finite (7 # 10)))]] in
  let '(self', outs, logs) :=
    get_monitor_value_calls apply_to_collection_flat _get_monitor_value_match evals self in
  length <$> logs = [1; 1; 0]
  /\ Forall (fun out => exists v, out = Return v) outs
  /\ _real_monitor self' = Some "acc".
Proof.
  intros self evals.
  apply (get_monitor_value_calls_key_changes apply_to_collection_flat
           _get_monitor_value_match evals
           [Some "accuracy"; Some "acc"; Some "acc"] self).
  cbn [resolves_run evals].
  repeat split; try discriminate; eexists; eexists; split; reflexivity.
Defined.

(** ** More on [on_after_trainer_initialized] *)

(** X11: [on_after_trainer_initialized] is idempotent: a second call with
    the same trainer ends as the first did and leaves the instance the
    first call left.  And the first monitor wins: once the instance has a
    monitor, its own or an adopted one, a call with any trainer changes
    nothing and returns. *)
Theorem on_after_trainer_initialized_twice (trainer : Trainer) (driver : pyobj)
    (self : HasMonitorCallback) :
  on_after_trainer_initialized trainer driver
    (fst (on_after_trainer_initialized trainer driver self))
  = on_after_trainer_initialized trainer driver self
  /\ (forall (trainer' : Trainer) (driver' : pyobj),
        monitor (fst (on_after_trainer_initialized trainer driver self)) <> None ->
        on_after_trainer_initialized trainer' driver'
          (fst (on_after_trainer_initialized trainer driver self))
        = (fst (on_after_trainer_initialized trainer driver self), Return tt)).
Proof.
  split.
  - destruct (on_after_trainer_initialized_state trainer driver self)
      as [Hsame | (_ & Ht & Hadopt)].
    + rewrite Hsame. reflexivity.
    + rewrite Hadopt. cbn [fst].
      apply (on_after_trainer_initialized_own trainer driver _
               (py_str (trainer_monitor trainer))).
      apply set_monitor_monitor_Some. exact Ht.
  - intros trainer' driver' Hm.
    destruct (monitor (fst (on_after_trainer_initialized trainer driver self)))
      as [name |] eqn:Hname; [| congruence].
    apply (on_after_trainer_initialized_own trainer' driver' _ name Hname).
Qed.

Lemma on_after_trainer_initialized_twice_witness :
  let self := HasMonitorCallback_init "EarlyStop" PyNone (PyBool false) true in
  let trainer := {| trainer_monitor := PyStr "acc"; trainer_larger_better := PyBool true |} in
  let trainer' := {| trainer_monitor := PyStr "loss"; trainer_larger_better := PyBool false |} in
  on_after_trainer_initialized trainer' PyNone
    (fst (on_after_trainer_initialized trainer PyNone self))
  = (fst (on_after_trainer_initialized trainer PyNone self), Return tt).
Proof.
  intros self trainer trainer'.
  apply (proj2 (on_after_trainer_initialized_twice trainer PyNone self) trainer' PyNone).
  discriminate.
Defined.

(** X12: a tracker constructed without a monitor and initialised under a
    trainer that has one ends exactly as a tracker constructed with the
    monitor and the direction of the trainer: the [larger_better] given to
    its own constructor is dropped with the adoption.  A tracker
    constructed with a monitor is left as constructed.  The call raises
    only for a tracker that must have a monitor when neither has one. *)
Theorem on_after_trainer_initialized_init (cls : string) (monitor0 larger_better0 : pyobj)
    (must : bool) (trainer : Trainer) (driver : pyobj) :
  let self := HasMonitorCallback_init cls monitor0 larger_better0 must in
  fst (on_after_trainer_initialized trainer driver self)
  = (if is_None monitor0 && negb (is_None (trainer_monitor trainer))
     then HasMonitorCallback_init cls (trainer_monitor trainer)
            (trainer_larger_better trainer) must
     else self)
  /\ ((exists e, snd (on_after_trainer_initialized trainer driver self) = Raise e)
      <-> must = true /\ monitor0 = PyNone /\ trainer_monitor trainer = PyNone).
Proof.
  destruct trainer as [tm tlb].
  destruct monitor0 as [| b | z | s], tm as [| b' | z' | s'], must;
    (split; [reflexivity |]); cbn;
    (split; [intros [e He]; try discriminate; repeat split; reflexivity
            | intros (H1 & H2 & H3); try discriminate; eexists; reflexivity]).
Qed.

(** ** More on [_CallbackWrapper.__init__] *)

Lemma CallbackWrapper_init_target_events (event : event_arg) (fn0 : pyfunction)
    (st : store) :
  _CallbackWrapper_init event fn0 st
  = foldl (bind_event fn0) ({| fn := fn0; attrs := ∅ |}, st) (target_events event).
Proof. destruct event; reflexivity. Qed.

(** A name that occurs among the events has a last occurrence. *)
Lemma last_occurrence (name : string) (events : list _SingleEventState) :
  name ∈ (value <$> events) ->
  exists (i : nat) (e : _SingleEventState),
    events !! i = Some e /\ value e = name
    /\ forall j e', events !! j = Some e' -> i < j -> value e' <> name.
Proof.
  induction events as [| e0 events IH]; intros Hin.
  - inversion Hin.
  - destruct (decide (name ∈ (value <$> events))) as [Hlater | Hnot].
    + destruct (IH Hlater) as (i & e & Hi & He & Hlast).
      exists (S i), e. split; [exact Hi |]. split; [exact He |].
      intros [| j] e' Hj Hlt; [lia |].
      apply (Hlast j e' Hj). lia.
    + rewrite fmap_cons in Hin. apply elem_of_cons in Hin as [Hhead | Hin];
        [| contradiction].
      exists 0, e0. split; [reflexivity |]. split; [symmetry; exact Hhead |].
      intros [| j] e' Hj Hlt; [lia |].
      intros Heq. apply Hnot. apply list_elem_of_fmap. exists e'.
      split; [symmetry; exact Heq |].
      apply list_elem_of_lookup. exists j. exact Hj.
Qed.

(** X13: the constructor sets nothing but what the events ask for.  Every
    attribute it sets is named by the [value] of one of the events, wraps
    the given function, and closes over a filter that was constructed in
    this call from the settings of that event; none refers to a filter
    that existed before.  Two attributes never share a filter.  One filter
    is constructed per event, and with no event to bind (an empty list, or
    an [event] argument of another type, which is accepted without an
    error) no attribute is set and no filter is constructed. *)
Theorem CallbackWrapper_init_attrs (event : event_arg) (fn0 : pyfunction) (st : store) :
  let w := fst (_CallbackWrapper_init event fn0 st) in
  let st' := snd (_CallbackWrapper_init event fn0 st) in
  (forall (name : string) (h : filtered),
     attrs w !! name = Some h ->
     wrapped h = fn0
     /\ length st <= closure_filter h < length st'
     /\ exists e : _SingleEventState,
          e ∈ target_events event /\ value e = name
          /\ st' !! closure_filter h = Some (Filter_of e))
  /\ (forall (n1 n2 : string) (h1 h2 : filtered),
        attrs w !! n1 = Some h1 -> attrs w !! n2 = Some h2 -> n1 <> n2 ->
        closure_filter h1 <> closure_filter h2)
  /\ length st' = length st + length (target_events event)
  /\ (target_events event = [] -> attrs w = ∅ /\ st' = st).
Proof.
  cbv zeta. rewrite CallbackWrapper_init_target_events.
  set (events := target_events event).
  destruct (foldl_bind_event fn0 events {| fn := fn0; attrs := ∅ |} st)
    as (_ & Hst & _ & Hout & Hin).
  cbn [attrs] in Hout.
  assert (Hattr : forall name h,
             attrs (fst (foldl (bind_event fn0)
                           ({| fn := fn0; attrs := ∅ |}, st) events)) !! name = Some h ->
             exists i e, events !! i = Some e /\ value e = name
                         /\ h = Filter_call (length st + i) fn0).
  { intros name h Hh.
    destruct (decide (name ∈ (value <$> events))) as [Hel | Hnot].
    - destruct (last_occurrence name events Hel) as (i & e & Hi & He & Hlast).
      exists i, e. split; [exact Hi |]. split; [exact He |].
      assert (Hlook := Hin i e Hi). rewrite He in Hlook.
      rewrite Hlook in Hh by exact Hlast. congruence.
    - rewrite (Hout name Hnot), lookup_empty in Hh. discriminate. }
  split; [| split; [| split]].
  - intros name h Hh.
    destruct (Hattr name h Hh) as (i & e & Hi & He & ->).
    cbn [wrapped closure_filter Filter_call].
    pose proof (lookup_lt_Some _ _ _ Hi) as Hlt.
    split; [reflexivity |].
    split; [rewrite Hst, length_app, length_fmap; lia |].
    exists e. split; [apply list_elem_of_lookup; exists i; exact Hi |].
    split; [exact He |].
    rewrite Hst, lookup_app_r by lia.
    replace (length st + i - length st) with i by lia.
    rewrite list_lookup_fmap, Hi. reflexivity.
  - intros n1 n2 h1 h2 H1 H2 Hne.
    destruct (Hattr n1 h1 H1) as (i1 & e1 & Hi1 & He1 & ->).
    destruct (Hattr n2 h2 H2) as (i2 & e2 & Hi2 & He2 & ->).
    cbn [closure_filter Filter_call]. intros Heq.
    assert (i1 = i2) by lia. subst i2. congruence.
  - rewrite Hst, length_app, length_fmap. reflexivity.
  - intros Hnil. rewrite Hnil. split; reflexivity.
Qed.

Lemma CallbackWrapper_init_attrs_witness :
  let on_begin := {| value := "on_train_begin"; every := None; once := Some 1%Z;
                     filter_fn := None |} in
  let on_begin' := {| value := "on_train_begin"; every := Some 3%Z; once := None;
                      filter_fn := None |} in
  let my_hook := {| __name__ := "my_hook"; body := fun _ => PyNone |} in
  let w := fst (_CallbackWrapper_init (IsEventsList [on_begin; on_begin']) my_hook []) in
  wrapped (Filter_call 1 my_hook) = my_hook
  /\ 0 <= closure_filter (Filter_call 1 my_hook)
          < length (snd (_CallbackWrapper_init (IsEventsList [on_begin; on_begin'])
                           my_hook []))
  /\ exists e : _SingleEventState,
       e ∈ [on_begin; on_begin'] /\ value e = "on_train_begin"
       /\ snd (_CallbackWrapper_init (IsEventsList [on_begin; on_begin']) my_hook [])
            !! closure_filter (Filter_call 1 my_hook) = Some (Filter_of e).
Proof.
  intros on_begin on_begin' my_hook w.
  apply (proj1 (CallbackWrapper_init_attrs (IsEventsList [on_begin; on_begin'])
                  my_hook []) "on_train_begin" (Filter_call 1 my_hook)).
  reflexivity.
Defined.
